(** * The React base classes and the React facade

    A shallow embedding of [packages/react/src/ReactBaseClasses.js] and
    [packages/react/src/React.js].

    Both files are glue code over the JavaScript object model: constructors
    that assign fields of [this], methods stored on prototype objects,
    [Object.freeze], [Object.defineProperty], [Object.assign] and one
    flag-guarded assignment on the exported namespace object.  The embedding
    therefore carries a small store of JavaScript objects (own properties
    with their attributes, a prototype link, an extensibility bit and an
    optional call behaviour) and the module-level statements and function
    bodies of the two files are written as computations over that store.
    A module is parsed before it is evaluated; for [React.js] the lines
    that stand between its statements are part of the embedding. *)

From Stdlib Require Import ZArith String Ascii List.
From stdpp Require Import base gmap strings list.

Local Open Scope string_scope.

(** ** Values *)

(** Object identities are store addresses. *)
Definition loc := nat.

(** The code inspects numbers only through [typeof] and truthiness, so a
    number is [NaN] or an integer. *)
Inductive number :=
| NaN
| Num (z : Z).

Inductive value :=
| VUndefined
| VNull
| VBool (b : bool)
| VNumber (n : number)
| VString (s : string)
| VSymbol (description : string)
| VRef (l : loc).

(** The function bodies of [ReactBaseClasses.js], with the module-scope
    bindings each closure captures, and the functions of the host (the
    renderer's updater and the like), which are known by a number only. *)
Inductive code :=
| CComponent (emptyObject : loc)
| CSetState
| CForceUpdate
| CDeprecatedGetter (info : string * string)
| CComponentDummy
| CPureComponent (emptyObject : loc)
| CHost (id : nat).

(** A property is a data property or an accessor property, each with its
    attributes. *)
Inductive property :=
| Data (v : value) (writable enumerable configurable : bool)
| Accessor (getter setter : value) (enumerable configurable : bool).

(** Own properties are kept in creation order, the order in which
    [Object.assign] and [for ... in] visit them. *)
Record object := Obj {
  obj_proto : value;
  obj_props : list (string * property);
  obj_extensible : bool;
  obj_call : option code
}.

(** What the module does to the outside: warnings it prints and calls it
    makes into host functions. *)
Inductive event :=
| Warning (format : string) (args : list value)
| HostCall (id : nat) (this : value) (args : list value).

Record state := State {
  heap : gmap loc object;
  trace : list event
}.

Inductive exn :=
| InvariantViolation (message : string)
| TypeError (message : string)
| Thrown (v : value)
| SyntaxError (line : nat) (text : string).

(** How a host function completes: it returns a value or throws one. *)
Inductive completion :=
| Normal (v : value)
| Abrupt (v : value).

(** A computation returns, throws, or has no result: the call depth it was
    given ran out, or the store is malformed (an address without object). *)
Inductive outcome (A : Type) :=
| Ret (a : A)
| Throw (e : exn)
| NoResult.
Arguments Ret {A} a.
Arguments Throw {A} e.
Arguments NoResult {A}.

(** ** The monad of computations over the store *)

Definition M (A : Type) : Type := state -> outcome A * state.

Definition ret {A} (a : A) : M A := fun s => (Ret a, s).

Definition throw {A} (e : exn) : M A := fun s => (Throw e, s).

Definition bind {A B} (m : M A) (k : A -> M B) : M B :=
  fun s =>
    match m s with
    | (Ret a, s') => k a s'
    | (Throw e, s') => (Throw e, s')
    | (NoResult, s') => (NoResult, s')
    end.

Notation "'let*' x ':=' m 'in' k" := (bind m (fun x => k))
  (at level 10, x name, m at level 100, k at level 200).
Notation "m '>>' k" := (bind m (fun _ => k))
  (at level 90, right associativity).

(** ** Pure helpers on objects *)

Fixpoint assoc {A} (k : string) (l : list (string * A)) : option A :=
  match l with
  | [] => None
  | (k', a) :: l' => if String.eqb k k' then Some a else assoc k l'
  end.

(** Replace the binding of [k] in place, or add it at the end. *)
Fixpoint assoc_set {A} (k : string) (a : A) (l : list (string * A))
  : list (string * A) :=
  match l with
  | [] => [(k, a)]
  | (k', a') :: l' =>
      if String.eqb k k' then (k, a) :: l' else (k', a') :: assoc_set k a l'
  end.

Definition own (o : object) (k : string) : option property :=
  assoc k (obj_props o).

Definition with_prop (k : string) (p : property) (o : object) : object :=
  Obj (obj_proto o) (assoc_set k p (obj_props o)) (obj_extensible o)
      (obj_call o).

Definition enumerable (p : property) : bool :=
  match p with
  | Data _ _ e _ => e
  | Accessor _ _ e _ => e
  end.

(** What [Object.freeze] does to one property. *)
Definition freeze_prop (p : property) : property :=
  match p with
  | Data v _ e _ => Data v false e false
  | Accessor g s e _ => Accessor g s e false
  end.

Definition frozen_prop (p : property) : bool :=
  match p with
  | Data _ w _ c => negb w && negb c
  | Accessor _ _ _ c => negb c
  end.

(** [Object.isFrozen]. *)
Definition is_frozen (o : object) : bool :=
  negb (obj_extensible o) && forallb (fun kp => frozen_prop (snd kp)) (obj_props o).

(** The [typeof] operator. *)
Definition typeof (h : gmap loc object) (v : value) : string :=
  match v with
  | VUndefined => "undefined"
  | VNull => "object"
  | VBool _ => "boolean"
  | VNumber _ => "number"
  | VString _ => "string"
  | VSymbol _ => "symbol"
  | VRef l =>
      match h !! l with
      | Some (Obj _ _ _ (Some _)) => "function"
      | _ => "object"
      end
  end.

(** [v == null]. *)
Definition loose_eq_null (v : value) : bool :=
  match v with
  | VUndefined | VNull => true
  | _ => false
  end.

(** Truthiness, as [||] tests it. *)
Definition to_boolean (v : value) : bool :=
  match v with
  | VUndefined | VNull => false
  | VBool b => b
  | VNumber NaN => false
  | VNumber (Num z) => negb (Z.eqb z 0)
  | VString s => negb (String.eqb s "")
  | VSymbol _ => true
  | VRef _ => true
  end.

(** [a || b]. *)
Definition or_else (a b : value) : value :=
  if to_boolean a then a else b.

(** The [i]-th actual argument; a missing argument reads [undefined]. *)
Definition arg (i : nat) (args : list value) : value :=
  nth i args VUndefined.

(** Walk the prototype chain from [l] looking for [k].  [Some None] is "not
    found"; [None] is a chain longer than [depth] or a dangling link. *)
Fixpoint find_prop (depth : nat) (h : gmap loc object) (l : loc) (k : string)
  : option (option property) :=
  match depth with
  | O => None
  | S d =>
      match h !! l with
      | None => None
      | Some o =>
          match own o k with
          | Some p => Some (Some p)
          | None =>
              match obj_proto o with
              | VRef l' => find_prop d h l' k
              | _ => Some None
              end
          end
      end
  end.

(** ** Store operations *)

Definition upd (l : loc) (o : object) (s : state) : state :=
  State (<[l:=o]> (heap s)) (trace s).

Definition emit (e : event) : M unit :=
  fun s => (Ret tt, State (heap s) (trace s ++ [e])).

(** A new object lives at an address the store does not use yet. *)
Definition next_loc (s : state) : loc := fresh (dom (heap s)).

Definition alloc (o : object) : M loc :=
  fun s => let l := next_loc s in (Ret l, upd l o s).

(** The built-in objects of the host that the object model refers to. *)
Record intrinsics := Intrinsics {
  ObjectPrototype : loc;
  FunctionPrototype : loc;
  BooleanPrototype : loc;
  NumberPrototype : loc;
  StringPrototype : loc;
  SymbolPrototype : loc
}.

(** Modelled from the spec: [shared/invariant] is imported, not part of the
    sources.  The spec has it signal an invariant violation carrying the
    descriptive message when the condition does not hold. *)
Definition invariant (condition : bool) (format : string) : M unit :=
  if condition then ret tt else throw (InvariantViolation format).

(** Modelled from the spec: [shared/lowPriorityWarning] is imported, not part
    of the sources.  The spec has a call whose condition is false emit one
    warning. *)
Definition lowPriorityWarning (condition : bool) (format : string)
  (args : list value) : M unit :=
  if condition then ret tt else emit (Warning format args).

Section ObjectModel.

Variable I : intrinsics.

(** How calls are carried out: [call_rec] is the call operation with the
    remaining call depth, [depth] bounds prototype chains. *)
Variable call_rec : value -> value -> list value -> M value.
Variable depth : nat.

(** Where property lookup on a value starts: the object itself, or the
    prototype of the wrapper of a primitive (own properties of string
    primitives are not modelled). *)
Definition base_of (v : value) : option loc :=
  match v with
  | VUndefined | VNull => None
  | VBool _ => Some (BooleanPrototype I)
  | VNumber _ => Some (NumberPrototype I)
  | VString _ => Some (StringPrototype I)
  | VSymbol _ => Some (SymbolPrototype I)
  | VRef l => Some l
  end.

(** [v.k] *)
Definition get_prop (v : value) (k : string) : M value :=
  fun s =>
    match base_of v with
    | None => (Throw (TypeError "Cannot read property of undefined or null"), s)
    | Some l =>
        match find_prop depth (heap s) l k with
        | None => (NoResult, s)
        | Some None => (Ret VUndefined, s)
        | Some (Some (Data x _ _ _)) => (Ret x, s)
        | Some (Some (Accessor VUndefined _ _ _)) => (Ret VUndefined, s)
        | Some (Some (Accessor g _ _ _)) => call_rec g v [] s
        end
    end.

(** [v.k = x] in strict code (modules are strict): an assignment that
    cannot be carried out throws. *)
Definition set_prop (v : value) (k : string) (x : value) : M unit :=
  fun s =>
    match base_of v with
    | None => (Throw (TypeError "Cannot set property of undefined or null"), s)
    | Some b =>
        match find_prop depth (heap s) b k with
        | None => (NoResult, s)
        | Some (Some (Accessor _ VUndefined _ _)) =>
            (Throw (TypeError "Cannot set property which has only a getter"), s)
        | Some (Some (Accessor _ st _ _)) => (call_rec st v [x] >> ret tt) s
        | Some (Some (Data _ false _ _)) =>
            (Throw (TypeError "Cannot assign to read only property"), s)
        | Some _ =>
            match v with
            | VRef l =>
                match heap s !! l with
                | None => (NoResult, s)
                | Some o =>
                    match own o k with
                    | Some (Data _ w e c) =>
                        (Ret tt, upd l (with_prop k (Data x w e c) o) s)
                    | Some (Accessor _ _ _ _) =>
                        (Throw (TypeError "Cannot set accessor property"), s)
                    | None =>
                        if obj_extensible o
                        then (Ret tt, upd l (with_prop k (Data x true true true) o) s)
                        else (Throw (TypeError "Cannot add property, object is not extensible"), s)
                    end
                end
            | _ => (Throw (TypeError "Cannot create property on a primitive"), s)
            end
        end
    end.

(** [Object.defineProperty(v, k, p)] for a complete descriptor [p].  A
    property that exists can be redefined when it is configurable. *)
Definition defineProperty (v : value) (k : string) (p : property) : M value :=
  fun s =>
    match v with
    | VRef l =>
        match heap s !! l with
        | None => (NoResult, s)
        | Some o =>
            match own o k with
            | None =>
                if obj_extensible o
                then (Ret v, upd l (with_prop k p o) s)
                else (Throw (TypeError "Cannot define property, object is not extensible"), s)
            | Some (Data _ _ _ true) | Some (Accessor _ _ _ true) =>
                (Ret v, upd l (with_prop k p o) s)
            | Some _ => (Throw (TypeError "Cannot redefine property"), s)
            end
        end
    | _ => (Throw (TypeError "Object.defineProperty called on non-object"), s)
    end.

(** [Object.freeze(v)] *)
Definition freeze (v : value) : M value :=
  fun s =>
    match v with
    | VRef l =>
        match heap s !! l with
        | None => (NoResult, s)
        | Some o =>
            (Ret v,
             upd l (Obj (obj_proto o)
                        (map (fun kp => (fst kp, freeze_prop (snd kp))) (obj_props o))
                        false (obj_call o)) s)
        end
    | _ => (Ret v, s)
    end.

(** One step of [Object.assign]: copy [k] when it is, at that moment, an
    own enumerable property of the source. *)
Definition assign_key (target source : value) (l : loc) (k : string) : M unit :=
  fun s =>
    match heap s !! l with
    | None => (NoResult, s)
    | Some o =>
        match own o k with
        | Some p =>
            if enumerable p
            then (let* x := get_prop source k in set_prop target k x) s
            else (Ret tt, s)
        | None => (Ret tt, s)
        end
    end.

Fixpoint assign_keys (target source : value) (l : loc) (keys : list string)
  : M unit :=
  match keys with
  | [] => ret tt
  | k :: ks => assign_key target source l k >> assign_keys target source l ks
  end.

(** [Object.assign(target, source)] for an object [target]. *)
Definition assign (target source : value) : M value :=
  match source with
  | VRef l =>
      fun s =>
        match heap s !! l with
        | None => (NoResult, s)
        | Some o =>
            (assign_keys target source l (map fst (obj_props o)) >> ret target) s
        end
  | _ => ret target
  end.

(** An object literal [{k1: v1, ...}]. *)
Definition object_literal (fields : list (string * value)) : M value :=
  let* l := alloc (Obj (VRef (ObjectPrototype I))
                       (map (fun kv => (fst kv, Data (snd kv) true true true)) fields)
                       true None) in
  ret (VRef l).

(** Give the object at [l] the own property [k], unconditionally (how the
    language equips an object it has just created). *)
Definition define_own (l : loc) (k : string) (p : property) : M unit :=
  fun s =>
    match heap s !! l with
    | None => (NoResult, s)
    | Some o => (Ret tt, upd l (with_prop k p o) s)
    end.

(** A [function] declaration or expression: the function object and the
    object its [prototype] property starts with. *)
Definition make_function (c : code) (name : string) (arity : Z) : M value :=
  let* f := alloc (Obj (VRef (FunctionPrototype I))
                       [("length", Data (VNumber (Num arity)) false false true);
                        ("name", Data (VString name) false false true)]
                       true (Some c)) in
  let* p := alloc (Obj (VRef (ObjectPrototype I))
                       [("constructor", Data (VRef f) true false true)]
                       true None) in
  define_own f "prototype" (Data (VRef p) true false false) >>
  ret (VRef f).

(** [new F(...args)] *)
Definition construct (F : value) (args : list value) : M value :=
  let* p := get_prop F "prototype" in
  let proto := match p with VRef _ => p | _ => VRef (ObjectPrototype I) end in
  let* l := alloc (Obj proto [] true None) in
  let* r := call_rec F (VRef l) args in
  ret (match r with VRef _ => r | _ => VRef l end).

(** [o.k(...args)] *)
Definition call_method (o : value) (k : string) (args : list value) : M value :=
  let* f := get_prop o k in
  call_rec f o args.

End ObjectModel.

(** ** ReactBaseClasses.js *)

(** The two message literals of the file. *)
Definition setState_message : string :=
  "setState(...): takes an object of state variables to update or a "
  ++ "function which returns an object of state variables.".

Definition deprecation_format : string :=
  "%s(...) is deprecated in plain JavaScript React classes. %s".

Section ReactBaseClasses.

Variable I : intrinsics.

(** The build flag [__DEV__]. *)
Variable DEV : bool.

(** The import [./ReactNoopUpdateQueue]: the default updater object. *)
Variable ReactNoopUpdateQueue : value.

(** The behaviour of the host's functions. *)
Variable host : nat -> value -> list value -> state -> completion * state.

Section Bodies.

Variable call_rec : value -> value -> list value -> M value.
Variable depth : nat.

Let get_prop := get_prop I call_rec depth.
Let set_prop := set_prop I call_rec depth.
Let call_method := call_method I call_rec depth.

(** [function Component(props, context, updater)] *)
Definition Component (emptyObject : loc) (this : value) (args : list value)
  : M value :=
  let props := arg 0 args in
  let context := arg 1 args in
  let updater := arg 2 args in
  set_prop this "props" props >>
  set_prop this "context" context >>
  set_prop this "refs" (VRef emptyObject) >>
  set_prop this "updater" (or_else updater ReactNoopUpdateQueue) >>
  ret VUndefined.

(** [Component.prototype.setState = function(partialState, callback)] *)
Definition setState (this : value) (args : list value) : M value :=
  let partialState := arg 0 args in
  let callback := arg 1 args in
  (fun s =>
     invariant
       (String.eqb (typeof (heap s) partialState) "object"
        || String.eqb (typeof (heap s) partialState) "function"
        || loose_eq_null partialState)
       setState_message s) >>
  let* updater := get_prop this "updater" in
  call_method updater "enqueueSetState"
    [this; partialState; callback; VString "setState"] >>
  ret VUndefined.

(** [Component.prototype.forceUpdate = function(callback)] *)
Definition forceUpdate (this : value) (args : list value) : M value :=
  let callback := arg 0 args in
  let* updater := get_prop this "updater" in
  call_method updater "enqueueForceUpdate"
    [this; callback; VString "forceUpdate"] >>
  ret VUndefined.

(** The getter that [defineDeprecationWarning] installs. *)
Definition deprecated_getter (info : string * string) (this : value)
  (args : list value) : M value :=
  lowPriorityWarning false deprecation_format
    [VString (fst info); VString (snd info)] >>
  ret VUndefined.

(** [function ComponentDummy() {}] *)
Definition ComponentDummy (this : value) (args : list value) : M value :=
  ret VUndefined.

(** [function PureComponent(props, context, updater)] *)
Definition PureComponent (emptyObject : loc) (this : value)
  (args : list value) : M value :=
  let props := arg 0 args in
  let context := arg 1 args in
  let updater := arg 2 args in
  set_prop this "props" props >>
  set_prop this "context" context >>
  set_prop this "refs" (VRef emptyObject) >>
  set_prop this "updater" (or_else updater ReactNoopUpdateQueue) >>
  ret VUndefined.

(** A call into the host is recorded, then the host runs; what the host
    throws is a value. *)
Definition host_call (id : nat) (this : value) (args : list value) : M value :=
  emit (HostCall id this args) >>
  fun s =>
    match host id this args s with
    | (Normal v, s') => (Ret v, s')
    | (Abrupt v, s') => (Throw (Thrown v), s')
    end.

Definition run_code (c : code) (this : value) (args : list value) : M value :=
  match c with
  | CComponent emptyObject => Component emptyObject this args
  | CSetState => setState this args
  | CForceUpdate => forceUpdate this args
  | CDeprecatedGetter info => deprecated_getter info this args
  | CComponentDummy => ComponentDummy this args
  | CPureComponent emptyObject => PureComponent emptyObject this args
  | CHost id => host_call id this args
  end.

End Bodies.

(** [f.call(this, ...args)], to call depth [fuel]. *)
Fixpoint call (fuel : nat) (f this : value) (args : list value) : M value :=
  match fuel with
  | O => fun s => (NoResult, s)
  | S n =>
      fun s =>
        match f with
        | VRef l =>
            match heap s !! l with
            | Some (Obj _ _ _ (Some c)) => run_code (call n) n c this args s
            | _ => (Throw (TypeError "not a function"), s)
            end
        | _ => (Throw (TypeError "not a function"), s)
        end
  end.

(** The module scope of [ReactBaseClasses.js] once the module has run. *)
Record module_scope := ModuleScope {
  emptyObject : loc;
  Component_fn : value;
  ComponentDummy_fn : value;
  PureComponent_fn : value;
  pureComponentPrototype : value
}.

Definition deprecatedAPIs : list (string * (string * string)) :=
  [("isMounted",
    ("isMounted",
     "Instead, make sure to clean up subscriptions and pending requests in "
     ++ "componentWillUnmount to prevent memory leaks."));
   ("replaceState",
    ("replaceState",
     "Refactor your code to use setState instead (see "
     ++ "https://github.com/facebook/react/issues/3236)."))].

Section Module.

Variable fuel : nat.

Let get_prop := get_prop I (call fuel) fuel.
Let set_prop := set_prop I (call fuel) fuel.

(** [defineDeprecationWarning(methodName, info)], for the function
    object [Component].  The descriptor literal has a [get] and nothing
    else, so the property is an accessor without setter that is neither
    enumerable nor configurable. *)
Definition defineDeprecationWarning (Component : value)
  (methodName : string) (info : string * string) : M unit :=
  let* proto := get_prop Component "prototype" in
  let* getter := make_function I (CDeprecatedGetter info) "get" 0 in
  defineProperty proto methodName (Accessor getter VUndefined false false) >>
  ret tt.

(** [for (const fnName in deprecatedAPIs) if (deprecatedAPIs.hasOwnProperty(fnName)) ...]:
    the guarded loop visits the own enumerable keys of the literal, in
    the order they are written. *)
Fixpoint define_all (Component : value)
  (apis : list (string * (string * string))) : M unit :=
  match apis with
  | [] => ret tt
  | (fnName, info) :: rest =>
      defineDeprecationWarning Component fnName info >>
      define_all Component rest
  end.

(** The statements of the module, top to bottom.  A function declaration
    makes its function object where it is written; the language makes it
    when the module starts, which changes the order in which addresses are
    handed out and nothing else. *)
Definition ReactBaseClasses : M module_scope :=
  let* emptyObject := alloc (Obj (VRef (ObjectPrototype I)) [] true None) in
  (if DEV then freeze (VRef emptyObject) else ret (VRef emptyObject)) >>
  let* Component := make_function I (CComponent emptyObject) "Component" 3 in
  let* cp := get_prop Component "prototype" in
  let* marker := object_literal I [] in
  set_prop cp "isReactComponent" marker >>
  let* cp := get_prop Component "prototype" in
  let* f := make_function I CSetState "" 2 in
  set_prop cp "setState" f >>
  let* cp := get_prop Component "prototype" in
  let* f := make_function I CForceUpdate "" 1 in
  set_prop cp "forceUpdate" f >>
  (if DEV then define_all Component deprecatedAPIs else ret tt) >>
  let* ComponentDummy := make_function I CComponentDummy "ComponentDummy" 0 in
  let* cp := get_prop Component "prototype" in
  set_prop ComponentDummy "prototype" cp >>
  let* PureComponent :=
    make_function I (CPureComponent emptyObject) "PureComponent" 3 in
  let* pureComponentPrototype :=
    construct I (call fuel) fuel ComponentDummy [] in
  set_prop PureComponent "prototype" pureComponentPrototype >>
  set_prop pureComponentPrototype "constructor" PureComponent >>
  let* cp := get_prop Component "prototype" in
  assign I (call fuel) fuel pureComponentPrototype cp >>
  set_prop pureComponentPrototype "isPureReactComponent" (VBool true) >>
  ret (ModuleScope emptyObject Component ComponentDummy PureComponent
         pureComponentPrototype).

End Module.

End ReactBaseClasses.

(** ** What the module leaves in the store *)

(** The own property names of [Object.prototype] in the language standard. *)
Definition standard_names : list string :=
  ["constructor"; "hasOwnProperty"; "isPrototypeOf"; "propertyIsEnumerable";
   "toLocaleString"; "toString"; "valueOf"; "__proto__";
   "__defineGetter__"; "__defineSetter__"; "__lookupGetter__";
   "__lookupSetter__"].

Definition is_standard (k : string) : bool :=
  existsb (String.eqb k) standard_names.

(** [Object.prototype] as the language defines it: the end of every
    prototype chain, with no property added to it. *)
Definition pristine (o : object) : Prop :=
  obj_proto o = VNull /\
  forallb (fun kp => is_standard (fst kp)) (obj_props o) = true.

(** The addresses of the objects the module creates. *)
Record layout := Layout {
  L_emptyObject : loc;
  L_Component : loc;
  L_ComponentPrototype : loc;
  L_isReactComponent : loc;
  L_setState : loc;
  L_forceUpdate : loc;
  L_isMounted : loc;
  L_replaceState : loc;
  L_PureComponent : loc;
  L_pureComponentPrototype : loc
}.

Definition is_function (s : state) (l : loc) (c : code) : Prop :=
  exists o, heap s !! l = Some o /\ obj_call o = Some c.

Definition is_constructor (s : state) (l : loc) (c : code) (proto : loc) : Prop :=
  exists o, heap s !! l = Some o /\ obj_call o = Some c /\
            own o "prototype" = Some (Data (VRef proto) true false false).

Section Loaded.

Variable I : intrinsics.
Variable DEV : bool.

Definition info_of (name : string) : string * string :=
  match assoc name deprecatedAPIs with
  | Some info => info
  | None => ("", "")
  end.

(** The own properties of [Component.prototype]. *)
Definition Component_prototype_props (L : layout) : list (string * property) :=
  [("constructor", Data (VRef (L_Component L)) true false true);
   ("isReactComponent", Data (VRef (L_isReactComponent L)) true true true);
   ("setState", Data (VRef (L_setState L)) true true true);
   ("forceUpdate", Data (VRef (L_forceUpdate L)) true true true)]
  ++ (if DEV
      then [("isMounted", Accessor (VRef (L_isMounted L)) VUndefined false false);
            ("replaceState", Accessor (VRef (L_replaceState L)) VUndefined false false)]
      else []).

(** The own properties of [PureComponent.prototype]. *)
Definition PureComponent_prototype_props (L : layout) : list (string * property) :=
  [("constructor", Data (VRef (L_PureComponent L)) true true true);
   ("isReactComponent", Data (VRef (L_isReactComponent L)) true true true);
   ("setState", Data (VRef (L_setState L)) true true true);
   ("forceUpdate", Data (VRef (L_forceUpdate L)) true true true);
   ("isPureReactComponent", Data (VBool true) true true true)].

Record loaded (L : layout) (s : state) : Prop := {
  ld_ObjectPrototype :
    exists op, heap s !! ObjectPrototype I = Some op /\ pristine op;
  ld_emptyObject :
    heap s !! L_emptyObject L
    = Some (Obj (VRef (ObjectPrototype I)) [] (negb DEV) None);
  ld_Component :
    is_constructor s (L_Component L) (CComponent (L_emptyObject L))
      (L_ComponentPrototype L);
  ld_ComponentPrototype :
    heap s !! L_ComponentPrototype L
    = Some (Obj (VRef (ObjectPrototype I)) (Component_prototype_props L) true None);
  ld_setState : is_function s (L_setState L) CSetState;
  ld_forceUpdate : is_function s (L_forceUpdate L) CForceUpdate;
  ld_isMounted :
    DEV = true ->
    is_function s (L_isMounted L) (CDeprecatedGetter (info_of "isMounted"));
  ld_replaceState :
    DEV = true ->
    is_function s (L_replaceState L) (CDeprecatedGetter (info_of "replaceState"));
  ld_PureComponent :
    is_constructor s (L_PureComponent L) (CPureComponent (L_emptyObject L))
      (L_pureComponentPrototype L);
  ld_pureComponentPrototype :
    heap s !! L_pureComponentPrototype L
    = Some (Obj (VRef (L_ComponentPrototype L)) (PureComponent_prototype_props L)
              true None)
}.

(** What a name resolves to from [Component.prototype] on, and from
    [PureComponent.prototype] on, when [Object.prototype] is [op]. *)
Definition via_Component (L : layout) (op : object) (k : string)
  : option property :=
  match assoc k (Component_prototype_props L) with
  | Some p => Some p
  | None => own op k
  end.

Definition via_PureComponent (L : layout) (op : object) (k : string)
  : option property :=
  match assoc k (PureComponent_prototype_props L) with
  | Some p => Some p
  | None => via_Component L op k
  end.

Definition scope_of (L : layout) (dummy : value) : module_scope :=
  ModuleScope (L_emptyObject L) (VRef (L_Component L)) dummy
    (VRef (L_PureComponent L)) (VRef (L_pureComponentPrototype L)).

(** What running the module in the store [s0] comes to: it returns its
    scope, leaves the objects of the layout [L] in the store, prints
    nothing, calls nothing, and keeps every object that was there. *)
Definition loads (s0 : state) (r : outcome module_scope * state) : Prop :=
  exists L dummy s1,
    r = (Ret (scope_of L dummy), s1) /\
    loaded L s1 /\
    trace s1 = trace s0 /\
    (forall l o, heap s0 !! l = Some o -> heap s1 !! l = Some o).

End Loaded.

(** ** Instances and what a program does with them *)

(** "An object, a function, null or undefined": what [setState] takes. *)
Definition accepted (v : value) : bool :=
  match v with
  | VRef _ | VNull | VUndefined => true
  | _ => false
  end.

(** The fields a base constructor called with [args] leaves on [this]. *)
Definition instance_fields (emptyObject : loc) (noop : value)
  (args : list value) : list (string * property) :=
  [("props", Data (arg 0 args) true true true);
   ("context", Data (arg 1 args) true true true);
   ("refs", Data (VRef emptyObject) true true true);
   ("updater", Data (or_else (arg 2 args) noop) true true true)].

(** The names the two prototypes define; an instance that does not shadow
    them inherits the base behaviour. *)
Definition inherited_names : list string :=
  ["constructor"; "isReactComponent"; "setState"; "forceUpdate"; "isMounted";
   "replaceState"; "isPureReactComponent"].

(** Names that neither prototype nor the standard [Object.prototype]
    defines. *)
Definition unused (k : string) : bool :=
  negb (is_standard k)
  && negb (existsb (String.eqb k) inherited_names).

(** An instance of one of the two classes: its prototype is the class's
    prototype object and it shadows none of the inherited names. *)
Definition instance_of (proto : loc) (s : state) (l : loc) : Prop :=
  exists o, heap s !! l = Some o /\ obj_proto o = VRef proto /\
            forallb (fun k => match own o k with None => true | Some _ => false end)
              inherited_names = true.

Definition base_prototype (L : layout) (P : loc) : Prop :=
  P = L_ComponentPrototype L \/ P = L_pureComponentPrototype L.

(** The two classes: the constructor and the prototype object of each. *)
Definition constructor_of (L : layout) (pure : bool) : loc :=
  if pure then L_PureComponent L else L_Component L.

Definition prototype_of (L : layout) (pure : bool) : loc :=
  if pure then L_pureComponentPrototype L else L_ComponentPrototype L.

Definition component_instance (L : layout) (s : state) (l : loc) : Prop :=
  instance_of (L_ComponentPrototype L) s l \/
  instance_of (L_pureComponentPrototype L) s l.

(** The instance's [updater] field holds [u]. *)
Definition bound_updater (s : state) (l : loc) (u : value) : Prop :=
  exists o w e c, heap s !! l = Some o /\ own o "updater" = Some (Data u w e c).

(** The updater [u] is an object on which [k] resolves, within [n] steps of
    the prototype chain, to the host function [id]. *)
Definition exposes (n : nat) (s : state) (u : value) (k : string) (id : nat) : Prop :=
  exists lu lf w e c,
    u = VRef lu /\
    find_prop n (heap s) lu k = Some (Some (Data (VRef lf) w e c)) /\
    is_function s lf (CHost id).

(** What forwarding to the host function [id] of the updater [u] amounts to:
    the call is recorded, the host runs once on the store as it is, and the
    method returns nothing. *)
Definition forwarded
  (host : nat -> value -> list value -> state -> completion * state)
  (id : nat) (u : value) (args : list value) : M value :=
  fun s =>
    match host id u args (State (heap s) (trace s ++ [HostCall id u args])) with
    | (Normal _, s') => (Ret VUndefined, s')
    | (Abrupt x, s') => (Throw (Thrown x), s')
    end.

(** The warning a deprecated member prints. *)
Definition deprecation_warning (name : string) : event :=
  match assoc name deprecatedAPIs with
  | Some info => Warning deprecation_format [VString (fst info); VString (snd info)]
  | None => Warning deprecation_format []
  end.

Section Programs.

Variable I : intrinsics.
Variable ReactNoopUpdateQueue : value.
Variable host : nat -> value -> list value -> state -> completion * state.
Variable fuel : nat.

(** [new F(...args)], [v.k] and [o.k(...args)] in a program. *)
Definition new (F : value) (args : list value) : M value :=
  construct I (call I ReactNoopUpdateQueue host fuel) fuel F args.

Definition get (v : value) (k : string) : M value :=
  get_prop I (call I ReactNoopUpdateQueue host fuel) fuel v k.

Definition set (v : value) (k : string) (x : value) : M unit :=
  set_prop I (call I ReactNoopUpdateQueue host fuel) fuel v k x.

Definition invoke (o : value) (k : string) (args : list value) : M value :=
  call_method I (call I ReactNoopUpdateQueue host fuel) fuel o k args.

End Programs.

(** ** React.js *)

(** What [React.js] imports from the rest of the package and from [shared]. *)
Record imports := Imports {
  ReactVersion : value;
  REACT_CONCURRENT_MODE_TYPE : value;
  REACT_FRAGMENT_TYPE : value;
  REACT_PROFILER_TYPE : value;
  REACT_STRICT_MODE_TYPE : value;
  REACT_SUSPENSE_TYPE : value;
  imp_Component : value;
  imp_PureComponent : value;
  createRef : value;
  forEach : value;
  map_children : value;
  count : value;
  toArray : value;
  only : value;
  createElement : value;
  createFactory : value;
  cloneElement : value;
  isValidElement : value;
  createContext : value;
  lazy : value;
  forwardRef : value;
  memo : value;
  useCallback : value;
  useContext : value;
  useEffect : value;
  useImperativeHandle : value;
  useDebugValue : value;
  useLayoutEffect : value;
  useMemo : value;
  useReducer : value;
  useRef : value;
  useState : value;
  createElementWithValidation : value;
  createFactoryWithValidation : value;
  cloneElementWithValidation : value;
  ReactSharedInternals : value;
  error : value;
  warn : value
}.

(** *** The text of the module

    A module's text is parsed before any of it is evaluated, and a text
    that does not parse is never evaluated: importing it throws a
    [SyntaxError].  What is needed of the grammar here is which lines may
    stand between two complete statements at the top level: blank lines,
    line comments, and lines on which a statement starts. *)

(** The line without the spaces and tabs it starts with. *)
Fixpoint skip_blanks (s : string) : string :=
  match s with
  | String c rest =>
      if Ascii.eqb c " "%char || Ascii.eqb c (Ascii.ascii_of_nat 9)
      then skip_blanks rest
      else s
  | EmptyString => s
  end.

(** Whether a statement can start with the character: the first of an
    identifier or a keyword, of a literal, an opening bracket, the empty
    statement, a prefix operator, or the slash of a comment or a regular
    expression.  No statement starts with [<], [=] or [>]. *)
Definition starts_statement (c : Ascii.ascii) : bool :=
  let n := Ascii.nat_of_ascii c in
  Nat.leb 65 n && Nat.leb n 90
  || Nat.leb 97 n && Nat.leb n 122
  || Nat.leb 48 n && Nat.leb n 57
  || Nat.leb 128 n
  || Nat.eqb n 34
  || existsb (Ascii.eqb c) (list_ascii_of_string "_$\.'`([{;+-!~/").

Inductive line_kind :=
| Blank
| LineComment
| Statement
| Unexpected.

Definition line_kind_of (line : string) : line_kind :=
  match skip_blanks line with
  | EmptyString => Blank
  | String c rest =>
      match rest with
      | String c' _ =>
          if Ascii.eqb c "/"%char && Ascii.eqb c' "/"%char then LineComment
          else if starts_statement c then Statement else Unexpected
      | EmptyString => if starts_statement c then Statement else Unexpected
      end
  end.

(** The lines, with their numbers, that can not stand where a statement
    is expected; [number] is the number of the first line given. *)
Fixpoint unexpected_lines (number : nat) (lines : list string)
  : list (nat * string) :=
  match lines with
  | [] => []
  | line :: rest =>
      match line_kind_of line with
      | Unexpected => (number, line) :: unexpected_lines (S number) rest
      | _ => unexpected_lines (S number) rest
      end
  end.

(** Lines 99 to 114 of [React.js] as they are in the repository.  They
    stand between the declaration of [React], which is complete on line
    98, and the [if] statement that starts on line 115. *)
Definition lines_99_114 : list string :=
  ["";
   "// Note: some APIs are added with feature flags.";
   "<<<<<<< HEAD";
   "// 小贴士：有些API添加了一些特别共功能标记";
   "// Make sure that stable builds for open source";
   "// 以确保对于开源是稳定的";
   "// don't modify the React object to avoid deopts.";
   "// 不要为了避免deopts而修改React对象";
   "// Also let's not expose their names in stable builds.";
   "// 同样不要再稳定版本中暴露他们的名字";
   "=======";
   "// Make sure that stable builds for open source";
   "// don't modify the React object to avoid deopts.";
   "// Also let's not expose their names in stable builds.";
   ">>>>>>> fb6b50871b2f0d846f63a51af7ce620ce6b73e48";
   ""].

Section React.

Variable I : intrinsics.
Variable DEV : bool.

(** The flag [enableStableConcurrentModeAPIs] of [shared/ReactFeatureFlags]. *)
Variable enableStableConcurrentModeAPIs : bool.

Variable imp : imports.

Variable call_rec : value -> value -> list value -> M value.
Variable depth : nat.

(** The fields of the literal [Children: {...}]. *)
Definition Children_fields : list (string * value) :=
  [("map", map_children imp);
   ("forEach", forEach imp);
   ("count", count imp);
   ("toArray", toArray imp);
   ("only", only imp)].

(** The fields of the literal [const React = {...}]. *)
Definition React_fields (Children : value) : list (string * value) :=
  [("Children", Children);
   ("createRef", createRef imp);
   ("Component", imp_Component imp);
   ("PureComponent", imp_PureComponent imp);
   ("createContext", createContext imp);
   ("forwardRef", forwardRef imp);
   ("lazy", lazy imp);
   ("memo", memo imp);
   ("error", error imp);
   ("warn", warn imp);
   ("useCallback", useCallback imp);
   ("useContext", useContext imp);
   ("useEffect", useEffect imp);
   ("useImperativeHandle", useImperativeHandle imp);
   ("useDebugValue", useDebugValue imp);
   ("useLayoutEffect", useLayoutEffect imp);
   ("useMemo", useMemo imp);
   ("useReducer", useReducer imp);
   ("useRef", useRef imp);
   ("useState", useState imp);
   ("Fragment", REACT_FRAGMENT_TYPE imp);
   ("Profiler", REACT_PROFILER_TYPE imp);
   ("StrictMode", REACT_STRICT_MODE_TYPE imp);
   ("Suspense", REACT_SUSPENSE_TYPE imp);
   ("createElement",
    if DEV then createElementWithValidation imp else createElement imp);
   ("cloneElement",
    if DEV then cloneElementWithValidation imp else cloneElement imp);
   ("createFactory",
    if DEV then createFactoryWithValidation imp else createFactory imp);
   ("isValidElement", isValidElement imp);
   ("version", ReactVersion imp);
   ("unstable_ConcurrentMode", REACT_CONCURRENT_MODE_TYPE imp);
   ("__SECRET_INTERNALS_DO_NOT_USE_OR_YOU_WILL_BE_FIRED",
    ReactSharedInternals imp)].

(** The statements of the module, lines 51 to 98 and 115 to 119; the
    value is the default export.  They are what is evaluated once the
    text has been parsed. *)
Definition React_statements : M value :=
  let* Children := object_literal I Children_fields in
  let* React := object_literal I (React_fields Children) in
  (if enableStableConcurrentModeAPIs
   then
     set_prop I call_rec depth React "ConcurrentMode"
       (REACT_CONCURRENT_MODE_TYPE imp) >>
     set_prop I call_rec depth React "unstable_ConcurrentMode" VUndefined
   else ret tt) >>
  ret React.

(** The module as it is in the repository: the text is parsed, and the
    statements are evaluated when nothing unexpected was met. *)
Definition React : M value :=
  match unexpected_lines 99 lines_99_114 with
  | (number, line) :: _ => throw (SyntaxError number line)
  | [] => React_statements
  end.

End React.

(** ** A concrete host *)

(** A store holding the built-in prototypes and a default updater whose two
    enqueue operations are host functions, and a host whose functions do
    nothing.  The examples run the modules in it. *)
Definition host_intrinsics : intrinsics := Intrinsics 0 1 2 3 4 5.

Definition host_function (id : nat) : object :=
  Obj (VRef 1) [] true (Some (CHost id)).

Definition host_store : state :=
  State
    (list_to_map
       [(0, Obj VNull
              [("hasOwnProperty", Data (VRef 9) true false true);
               ("toString", Data (VRef 10) true false true)]
              true None);
        (1, Obj (VRef 0) [] true None);
        (2, Obj (VRef 0) [] true None);
        (3, Obj (VRef 0) [] true None);
        (4, Obj (VRef 0) [] true None);
        (5, Obj (VRef 0) [] true None);
        (6, Obj (VRef 0)
              [("enqueueForceUpdate", Data (VRef 7) true true true);
               ("enqueueSetState", Data (VRef 8) true true true)]
              true None);
        (7, host_function 0);
        (8, host_function 1);
        (9, host_function 2);
        (10, host_function 3)])
    [].

Definition noop_queue : value := VRef 6.

Definition quiet_host : nat -> value -> list value -> state -> completion * state :=
  fun _ _ _ s => (Normal VUndefined, s).

(** The store once [ReactBaseClasses.js] has run in the concrete host, for
    either value of [__DEV__], and where the module then finds its objects. *)
Definition loaded_store (DEV : bool) : state :=
  snd (ReactBaseClasses host_intrinsics DEV noop_queue quiet_host 8 host_store).

Definition dev_layout : layout := Layout 11 12 13 14 15 17 19 21 25 27.

Definition prod_layout : layout := Layout 11 12 13 14 15 17 0 0 21 23.

(** Programs in the concrete host, at call depth 8. *)
Definition host_new : value -> list value -> M value :=
  new host_intrinsics noop_queue quiet_host 8.

Definition host_get : value -> string -> M value :=
  get host_intrinsics noop_queue quiet_host 8.

Definition host_set : value -> string -> value -> M unit :=
  set host_intrinsics noop_queue quiet_host 8.

Definition host_invoke : value -> string -> list value -> M value :=
  invoke host_intrinsics noop_queue quiet_host 8.

(** An instance of each class, constructed in the development build with
    props and context and no updater, and the store it then lives in. *)
Definition instance_store (pure : bool) : state :=
  snd (host_new (VRef (constructor_of dev_layout pure)) [VString "props"; VNull]
         (loaded_store true)).

Definition the_instance : loc := 28.

(** An instance of [Component] constructed in the production build. *)
Definition production_instance_store : state :=
  snd (host_new (VRef 12) [VString "props"; VNull] (loaded_store false)).

(** C3 as the spec states it: the placeholder that [refs] holds after
    construction is frozen, whatever the build. *)
Definition placeholder_always_frozen : Prop :=
  forall I DEV noop host L s n args pure,
    loaded I DEV L s ->
    exists l s' e o,
      new I noop host (5 + n) (VRef (constructor_of L pure)) args s
      = (Ret (VRef l), s') /\
      get I noop host (5 + n) (VRef l) "refs" s' = (Ret (VRef e), s') /\
      heap s' !! e = Some o /\
      is_frozen o = true.

Definition some_imports : imports :=
  Imports (VString "16.8.0") (VSymbol "react.concurrent_mode")
    (VSymbol "react.fragment") (VSymbol "react.profiler")
    (VSymbol "react.strict_mode") (VSymbol "react.suspense")
    (VRef 12) (VRef 25) (VRef 7) (VRef 7) (VRef 7) (VRef 7) (VRef 7) (VRef 7)
    (VRef 7) (VRef 7) (VRef 7) (VRef 7) (VRef 7) (VRef 7) (VRef 7) (VRef 7)
    (VRef 7) (VRef 7) (VRef 7) (VRef 7) (VRef 7) (VRef 7) (VRef 7) (VRef 7)
    (VRef 7) (VRef 7) (VRef 8) (VRef 8) (VRef 8) (VRef 6) (VRef 7) (VRef 7).

(** ** The [instanceof] operator *)

(** Whether the object at [p] is on the prototype chain of [v], walking at
    most [depth] links. *)
Fixpoint in_chain (depth : nat) (h : gmap loc object) (v : value) (p : loc)
  : option bool :=
  match depth with
  | O => None
  | S d =>
      match v with
      | VRef l =>
          match h !! l with
          | None => None
          | Some o =>
              match obj_proto o with
              | VRef q => if Nat.eqb q p then Some true else in_chain d h (VRef q) p
              | _ => Some false
              end
          end
      | _ => Some false
      end
  end.

Section Operators.

Variable I : intrinsics.
Variable call_rec : value -> value -> list value -> M value.
Variable depth : nat.

(** [v instanceof F] for a function [F] without a [Symbol.hasInstance] of
    its own: the object [F.prototype] is looked for on the chain of [v]. *)
Definition instanceof (v F : value) : M bool :=
  let* p := get_prop I call_rec depth F "prototype" in
  match p with
  | VRef pl =>
      fun s =>
        match in_chain depth (heap s) v pl with
        | Some b => (Ret b, s)
        | None => (NoResult, s)
        end
  | _ => throw (TypeError "Function has non-object prototype in instanceof check")
  end.

End Operators.

(** An instance of [Component] whose updater is an object without
    operations, in the development build. *)
Definition bare_updater_store : state :=
  snd (host_new (VRef 12) [VString "props"; VNull; VRef 14] (loaded_store true)).

(** The [Object.prototype] of the concrete host. *)
Definition host_object_prototype : object :=
  Obj VNull
    [("hasOwnProperty", Data (VRef 9) true false true);
     ("toString", Data (VRef 10) true false true)]
    true None.

(** * Properties *)

(** ** Association lists and own properties *)

Lemma assoc_set_eq {A} (k : string) (a : A) (l : list (string * A)) :
  assoc k (assoc_set k a l) = Some a.
Proof.
  induction l as [|[k' a'] l IH]; simpl.
  - now rewrite String.eqb_refl.
  - destruct (String.eqb k k') eqn:E; simpl; rewrite ?String.eqb_refl, ?E; auto.
Qed.

Lemma assoc_set_ne {A} (k k' : string) (a : A) (l : list (string * A)) :
  k <> k' -> assoc k' (assoc_set k a l) = assoc k' l.
Proof.
  intros Hne. induction l as [|[k0 a0] l IH]; simpl.
  - destruct (String.eqb_spec k' k); congruence.
  - destruct (String.eqb_spec k k0) as [->|Hk]; simpl.
    + destruct (String.eqb_spec k' k0); congruence.
    + destruct (String.eqb_spec k' k0); auto.
Qed.

Lemma assoc_set_fresh {A} (k : string) (a : A) (l : list (string * A)) :
  assoc k l = None -> assoc_set k a l = (l ++ [(k, a)])%list.
Proof.
  induction l as [|[k' a'] l IH]; simpl; [reflexivity|].
  destruct (String.eqb k k'); [discriminate|].
  intros H. now rewrite IH.
Qed.

Lemma own_with_prop_eq k p o : own (with_prop k p o) k = Some p.
Proof. apply assoc_set_eq. Qed.

Lemma own_with_prop_ne k k' p o : k <> k' -> own (with_prop k p o) k' = own o k'.
Proof. apply assoc_set_ne. Qed.

Lemma pristine_own o k : pristine o -> is_standard k = false -> own o k = None.
Proof.
  intros [_ Hall] Hk. unfold own.
  induction (obj_props o) as [|[k' p] l IH]; simpl in *; [reflexivity|].
  apply andb_prop in Hall as [Hk' Hl].
  destruct (String.eqb_spec k k') as [->|_]; [congruence|auto].
Qed.

(** ** Resolution along the prototype chain *)

Lemma find_prop_own d (h : gmap loc object) l o k p :
  h !! l = Some o -> own o k = Some p -> find_prop (S d) h l k = Some (Some p).
Proof. intros Hl Ho. simpl. now rewrite Hl, Ho. Qed.

Lemma find_prop_step d (h : gmap loc object) l o k l' :
  h !! l = Some o -> own o k = None -> obj_proto o = VRef l' ->
  find_prop (S d) h l k = find_prop d h l' k.
Proof. intros Hl Ho Hp. simpl. now rewrite Hl, Ho, Hp. Qed.

Lemma find_prop_end d (h : gmap loc object) l o k :
  h !! l = Some o -> own o k = None -> obj_proto o = VNull ->
  find_prop (S d) h l k = Some None.
Proof. intros Hl Ho Hp. simpl. now rewrite Hl, Ho, Hp. Qed.

(** A lookup that has an answer keeps it at any larger depth. *)
Lemma find_prop_mono d d' (h : gmap loc object) l k r :
  find_prop d h l k = Some r -> d <= d' -> find_prop d' h l k = Some r.
Proof.
  revert d' l. induction d as [|d IH]; intros d' l H Hle; [discriminate|].
  destruct d' as [|d']; [lia|]. simpl in *.
  destruct (h !! l) as [o|]; [|discriminate].
  destruct (own o k); [assumption|].
  destruct (obj_proto o); try assumption.
  apply IH; [assumption|lia].
Qed.

(** ** The monad *)

Lemma bind_ret {A B} (m : M A) (k : A -> M B) s a s' :
  m s = (Ret a, s') -> bind m k s = k a s'.
Proof. intros H. unfold bind. now rewrite H. Qed.

Lemma bind_throw {A B} (m : M A) (k : A -> M B) s e s' :
  m s = (Throw e, s') -> bind m k s = (Throw e, s').
Proof. intros H. unfold bind. now rewrite H. Qed.

(** ** Updates of the store *)

Lemma heap_upd_eq l o s : heap (upd l o s) !! l = Some o.
Proof. apply lookup_insert_eq. Qed.

Lemma heap_upd_ne l l' o s : l <> l' -> heap (upd l o s) !! l' = heap s !! l'.
Proof. apply lookup_insert_ne. Qed.

Lemma upd_upd l o o' s : upd l o' (upd l o s) = upd l o' s.
Proof. unfold upd. simpl. now rewrite insert_insert_eq. Qed.

Lemma trace_upd l o s : trace (upd l o s) = trace s.
Proof. reflexivity. Qed.

Lemma next_loc_fresh s : heap s !! next_loc s = None.
Proof. unfold next_loc. apply not_elem_of_dom, is_fresh. Qed.

Lemma alloc_eq o s : alloc o s = (Ret (next_loc s), upd (next_loc s) o s).
Proof. reflexivity. Qed.

(** An object that is in the store is not at a free address. *)
Lemma fresh_ne (h : gmap loc object) l l' o :
  h !! l = None -> h !! l' = Some o -> l <> l'.
Proof. congruence. Qed.

(** ** The object model's operations *)

Section ObjectModelFacts.

Variable I : intrinsics.
Variable call_rec : value -> value -> list value -> M value.
Variable depth : nat.

Lemma get_prop_data l k s x w e c :
  find_prop depth (heap s) l k = Some (Some (Data x w e c)) ->
  get_prop I call_rec depth (VRef l) k s = (Ret x, s).
Proof. intros H. unfold get_prop. simpl. now rewrite H. Qed.

Lemma get_prop_absent l k s :
  find_prop depth (heap s) l k = Some None ->
  get_prop I call_rec depth (VRef l) k s = (Ret VUndefined, s).
Proof. intros H. unfold get_prop. simpl. now rewrite H. Qed.

Lemma get_prop_getter l k s g st e c :
  find_prop depth (heap s) l k = Some (Some (Accessor (VRef g) st e c)) ->
  get_prop I call_rec depth (VRef l) k s = call_rec (VRef g) (VRef l) [] s.
Proof. intros H. unfold get_prop. simpl. now rewrite H. Qed.

(** Assigning a name that resolves nowhere adds a field to the object. *)
Lemma set_prop_new l k x s o :
  heap s !! l = Some o -> obj_extensible o = true ->
  find_prop depth (heap s) l k = Some None ->
  set_prop I call_rec depth (VRef l) k x s
  = (Ret tt, upd l (with_prop k (Data x true true true) o) s).
Proof.
  intros Hl Hext Hfind. unfold set_prop. simpl. rewrite Hfind, Hl.
  assert (own o k = None) as ->.
  { destruct depth as [|d]; [discriminate|]. simpl in Hfind. rewrite Hl in Hfind.
    destruct (own o k); [discriminate|reflexivity]. }
  now rewrite Hext.
Qed.

(** Assigning a name that resolves to a writable data property of a
    prototype adds a field to the object as well. *)
Lemma set_prop_shadow l k x s o y e c :
  heap s !! l = Some o -> obj_extensible o = true -> own o k = None ->
  find_prop depth (heap s) l k = Some (Some (Data y true e c)) ->
  set_prop I call_rec depth (VRef l) k x s
  = (Ret tt, upd l (with_prop k (Data x true true true) o) s).
Proof.
  intros Hl Hext Hown Hfind. unfold set_prop. simpl.
  now rewrite Hfind, Hl, Hown, Hext.
Qed.

(** Assigning a writable own data property replaces its value. *)
Lemma set_prop_own l k x s o y e c :
  heap s !! l = Some o -> own o k = Some (Data y true e c) -> 0 < depth ->
  set_prop I call_rec depth (VRef l) k x s
  = (Ret tt, upd l (with_prop k (Data x true e c) o) s).
Proof.
  intros Hl Hown Hd. unfold set_prop. simpl.
  destruct depth as [|d]; [lia|].
  rewrite (find_prop_own d _ _ _ _ _ Hl Hown). now rewrite Hl, Hown.
Qed.

(** In strict code an object that is not extensible rejects the
    assignment of a name that resolves nowhere on its chain. *)
Lemma set_prop_not_extensible l k x s o :
  heap s !! l = Some o -> obj_extensible o = false ->
  find_prop depth (heap s) l k = Some None ->
  exists m, set_prop I call_rec depth (VRef l) k x s = (Throw (TypeError m), s).
Proof.
  intros Hl Hext Hfind. unfold set_prop. simpl. rewrite Hfind, Hl.
  assert (own o k = None) as ->.
  { destruct depth as [|d]; [discriminate|]. simpl in Hfind. rewrite Hl in Hfind.
    destruct (own o k); [discriminate|reflexivity]. }
  rewrite Hext. eauto.
Qed.

Lemma object_literal_eq fields s :
  object_literal I fields s
  = (Ret (VRef (next_loc s)),
     upd (next_loc s)
       (Obj (VRef (ObjectPrototype I))
          (map (fun kv => (fst kv, Data (snd kv) true true true)) fields)
          true None) s).
Proof. reflexivity. Qed.

End ObjectModelFacts.

(** ** Calls *)

Section CallFacts.

Variable I : intrinsics.
Variable ReactNoopUpdateQueue : value.
Variable host : nat -> value -> list value -> state -> completion * state.

Local Abbreviation call := (call I ReactNoopUpdateQueue host).
Local Abbreviation run_code := (run_code I ReactNoopUpdateQueue host).

Lemma call_function n l c this args s :
  is_function s l c ->
  call (S n) (VRef l) this args s = run_code (call n) n c this args s.
Proof.
  intros (o & Hl & Hc). simpl. rewrite Hl.
  destruct o as [pr ps ex cl]. simpl in Hc. now subst cl.
Qed.

Lemma is_constructor_function s l c p :
  is_constructor s l c p -> is_function s l c.
Proof. intros (o & Hl & Hc & _). now exists o. Qed.

Lemma is_function_upd s l c l' o :
  is_function s l c -> heap s !! l' = None -> is_function (upd l' o s) l c.
Proof.
  intros (o' & Hl & Hc) Hf. exists o'. split; [|assumption].
  rewrite heap_upd_ne; [assumption|]. eapply fresh_ne; eassumption.
Qed.

Lemma is_constructor_upd s l c p l' o :
  is_constructor s l c p -> heap s !! l' = None ->
  is_constructor (upd l' o s) l c p.
Proof.
  intros (o' & Hl & Hc) Hf. exists o'. split; [|assumption].
  rewrite heap_upd_ne; [assumption|]. eapply fresh_ne; eassumption.
Qed.

End CallFacts.

(** ** The loaded module *)

Section LoadedFacts.

Variable I : intrinsics.
Variable DEV : bool.
Variable L : layout.

Local Abbreviation loaded := (loaded I DEV L).

(** Creating or changing an object at an address the module does not use
    leaves the module as it is. *)
Lemma loaded_upd s l o :
  loaded s -> heap s !! l = None -> loaded (upd l o s).
Proof.
  intros [Hop Heo Hc Hcp Hss Hfu Him Hrs Hpc Hpp] Hl.
  assert (forall l' o', heap s !! l' = Some o' -> heap (upd l o s) !! l' = Some o')
    as keep.
  { intros l' o' H. rewrite heap_upd_ne; [assumption|]. eapply fresh_ne; eassumption. }
  split; auto using is_function_upd, is_constructor_upd.
  destruct Hop as (op & H1 & H2). exists op. auto.
Qed.

Lemma resolve_Component s op l o k d :
  loaded s -> heap s !! ObjectPrototype I = Some op -> pristine op ->
  heap s !! l = Some o -> obj_proto o = VRef (L_ComponentPrototype L) ->
  find_prop (3 + d) (heap s) l k
  = Some (match own o k with
          | Some p => Some p
          | None => via_Component DEV L op k
          end).
Proof.
  intros Hld Hop [Hnull _] Hl Hproto.
  change (3 + d) with (S (S (S d))).
  destruct (own o k) as [p|] eqn:Hown.
  { now apply find_prop_own with o. }
  rewrite (find_prop_step _ _ _ _ _ _ Hl Hown Hproto).
  unfold via_Component.
  pose proof (ld_ComponentPrototype _ _ _ _ Hld) as Hcp.
  destruct (assoc k (Component_prototype_props DEV L)) as [p|] eqn:Hk.
  { now apply find_prop_own with (Obj (VRef (ObjectPrototype I))
                                   (Component_prototype_props DEV L) true None). }
  rewrite (find_prop_step _ _ _ _ _ _ Hcp Hk eq_refl).
  destruct (own op k) as [p|] eqn:Hk'.
  { now apply find_prop_own with op. }
  now apply find_prop_end with op.
Qed.

Lemma resolve_PureComponent s op l o k d :
  loaded s -> heap s !! ObjectPrototype I = Some op -> pristine op ->
  heap s !! l = Some o -> obj_proto o = VRef (L_pureComponentPrototype L) ->
  find_prop (4 + d) (heap s) l k
  = Some (match own o k with
          | Some p => Some p
          | None => via_PureComponent DEV L op k
          end).
Proof.
  intros Hld Hop Hpr Hl Hproto.
  change (4 + d) with (S (3 + d)).
  destruct (own o k) as [p|] eqn:Hown.
  { now apply find_prop_own with o. }
  rewrite (find_prop_step _ _ _ _ _ _ Hl Hown Hproto).
  pose proof (ld_pureComponentPrototype _ _ _ _ Hld) as Hpp.
  rewrite (resolve_Component s op _ _ k d Hld Hop Hpr Hpp eq_refl).
  reflexivity.
Qed.

Lemma via_Component_unused op k :
  pristine op -> unused k = true -> via_Component DEV L op k = None.
Proof.
  intros Hpr Hk. apply andb_prop in Hk as [Hstd Hinh].
  apply negb_true_iff in Hstd, Hinh.
  unfold via_Component. rewrite (pristine_own _ _ Hpr Hstd).
  simpl in Hinh. repeat (apply orb_false_elim in Hinh as [? Hinh]).
  unfold Component_prototype_props. destruct DEV; simpl;
    repeat match goal with H : String.eqb _ _ = false |- _ => rewrite H; clear H end;
    reflexivity.
Qed.

Lemma via_PureComponent_unused op k :
  pristine op -> unused k = true -> via_PureComponent DEV L op k = None.
Proof.
  intros Hpr Hk. unfold via_PureComponent.
  rewrite (via_Component_unused _ _ Hpr Hk).
  apply andb_prop in Hk as [_ Hinh]. apply negb_true_iff in Hinh.
  simpl in Hinh. repeat (apply orb_false_elim in Hinh as [? Hinh]).
  simpl. repeat match goal with H : String.eqb _ _ = false |- _ => rewrite H; clear H end.
  reflexivity.
Qed.

End LoadedFacts.

(** ** Running the module *)

Lemma bind_assoc {A B C} (m : M A) (k1 : A -> M B) (k2 : B -> M C) s :
  bind (bind m k1) k2 s = bind m (fun x => bind (k1 x) k2) s.
Proof. unfold bind. destruct (m s) as [[a| |] s']; reflexivity. Qed.

Lemma bind_ret_l {A B} (a : A) (k : A -> M B) s : bind (ret a) k s = k a s.
Proof. reflexivity. Qed.

Lemma upd_fresh l o s l' :
  heap (upd l o s) !! l' = None -> heap s !! l' = None /\ l <> l'.
Proof. apply lookup_insert_None. Qed.

Section ModuleSteps.

Variable I : intrinsics.
Variable call_rec : value -> value -> list value -> M value.
Variable depth : nat.

Lemma freeze_eq l o s :
  heap s !! l = Some o ->
  freeze (VRef l) s
  = (Ret (VRef l),
     upd l (Obj (obj_proto o)
              (map (fun kp => (fst kp, freeze_prop (snd kp))) (obj_props o))
              false (obj_call o)) s).
Proof. intros H. unfold freeze. now rewrite H. Qed.

Lemma define_own_eq l k p o s :
  heap s !! l = Some o ->
  define_own l k p s = (Ret tt, upd l (with_prop k p o) s).
Proof. intros H. unfold define_own. now rewrite H. Qed.

Lemma defineProperty_new l k p o s :
  heap s !! l = Some o -> own o k = None -> obj_extensible o = true ->
  defineProperty (VRef l) k p s = (Ret (VRef l), upd l (with_prop k p o) s).
Proof. intros H1 H2 H3. unfold defineProperty. now rewrite H1, H2, H3. Qed.

Lemma bind_assign {B} target l o keys (k : value -> M B) s :
  heap s !! l = Some o -> map fst (obj_props o) = keys ->
  bind (assign I call_rec depth target (VRef l)) k s
  = bind (assign_keys I call_rec depth target (VRef l) l keys >> ret target) k s.
Proof. intros H <-. unfold bind at 1 3. unfold assign. now rewrite H. Qed.

Lemma bind_assign_key_skip {B} target source l key o p (k : unit -> M B) s :
  heap s !! l = Some o -> own o key = Some p -> enumerable p = false ->
  bind (assign_key I call_rec depth target source l key) k s = k tt s.
Proof. intros H1 H2 H3. unfold bind, assign_key. now rewrite H1, H2, H3. Qed.

Lemma bind_assign_key_copy {B} target source l key o p (k : unit -> M B) s :
  heap s !! l = Some o -> own o key = Some p -> enumerable p = true ->
  bind (assign_key I call_rec depth target source l key) k s
  = bind (let* x := get_prop I call_rec depth source key in
          set_prop I call_rec depth target key x) k s.
Proof.
  intros H1 H2 H3. unfold bind at 1 3. unfold assign_key.
  now rewrite H1, H2, H3.
Qed.

End ModuleSteps.

(** Two addresses are known to differ. *)
Ltac neq := first [assumption | apply not_eq_sym; assumption].

(** Read the store at an address, through the updates made so far. *)
Ltac lookup :=
  repeat first [rewrite heap_upd_eq | rewrite heap_upd_ne by neq];
  first [reflexivity | eassumption].

(** Resolve a name along the chain of an object the module made; [Hpr] says
    that the chain ends in a pristine [Object.prototype]. *)
Ltac chain Hpr :=
  repeat first
    [ solve [eapply find_prop_own; [lookup | reflexivity]]
    | erewrite find_prop_step by first [lookup | reflexivity]
    | solve [eapply find_prop_end;
             [lookup | apply pristine_own; [exact Hpr | reflexivity] | apply Hpr]] ].

(** Name the address of the object being created and record that it
    differs from every address in use. *)
Ltac fresh_loc l :=
  match goal with
  | |- context [next_loc ?s] =>
      let F := fresh "F" in
      pose proof (next_loc_fresh s) as F;
      revert F; generalize (next_loc s); intros l F;
      repeat (apply upd_fresh in F; destruct F as [F ?])
  end.

(** One statement of the module, other than the creation of an object. *)
Ltac step Hpr :=
  cbv beta iota;
  lazymatch goal with
  | |- loads _ _ _ (bind (bind _ _) _ _) => rewrite bind_assoc
  | |- loads _ _ _ (bind (ret _) _ _) => rewrite bind_ret_l
  | |- loads _ _ _ (bind (freeze _) _ _) =>
      erewrite bind_ret by (eapply freeze_eq; lookup)
  | |- loads _ _ _ (bind (define_own _ _ _) _ _) =>
      erewrite bind_ret by (eapply define_own_eq; lookup)
  | |- loads _ _ _ (bind (defineProperty _ _ _) _ _) =>
      erewrite bind_ret
        by (eapply defineProperty_new; [lookup|reflexivity|reflexivity])
  | |- loads _ _ _ (bind (make_function _ _ _ _) _ _) =>
      unfold make_function at 1
  | |- loads _ _ _ (bind (object_literal _ _) _ _) =>
      unfold object_literal at 1
  | |- loads _ _ _ (bind (construct _ _ _ _ _) _ _) =>
      unfold construct at 1
  | |- loads _ _ _ (bind (defineDeprecationWarning _ _ _ _ _ _ _) _ _) =>
      unfold defineDeprecationWarning at 1
  | |- loads _ _ _ (bind (define_all _ _ _ _ _ _) _ _) =>
      unfold deprecatedAPIs; cbn [define_all]
  | |- loads _ _ _ (bind (get_prop _ _ _ _ _) _ _) =>
      erewrite bind_ret by (eapply get_prop_data; chain Hpr)
  | |- loads _ _ _ (bind (set_prop _ _ _ _ _ _) _ _) =>
      erewrite bind_ret by
        first [ solve [eapply set_prop_own; [lookup|reflexivity|apply Nat.lt_0_succ]]
              | solve [eapply set_prop_new; [lookup|reflexivity|chain Hpr]]
              | solve [eapply set_prop_shadow;
                       [lookup|reflexivity|reflexivity|chain Hpr]] ]
  | |- loads _ _ _ (bind (call _ _ _ _ _ _ _) _ _) =>
      erewrite bind_ret by
        (erewrite call_function by (eexists; split; [lookup|reflexivity]);
         reflexivity)
  | |- loads _ _ _ (bind (assign _ _ _ _ _) _ _) =>
      erewrite bind_assign; [ | lookup | lazy; reflexivity ];
      cbn [assign_keys]
  | |- loads _ _ _ (bind (assign_key _ _ _ _ _ _ _) _ _) =>
      first [ erewrite bind_assign_key_skip by first [lookup | reflexivity]
            | erewrite bind_assign_key_copy by first [lookup | reflexivity] ]
  end.

(** Run up to the next object creation and name the new address [l]. *)
Ltac create I l Hpr :=
  repeat step Hpr;
  lazymatch goal with
  | |- loads _ _ _ (bind (alloc _) _ _) =>
      rewrite (bind_ret _ _ _ _ _ (alloc_eq _ _));
      fresh_loc l;
      assert (ObjectPrototype I <> l)
        by (apply not_eq_sym; eapply fresh_ne; eassumption)
  end.

Ltac made_function := eexists; split; [lookup | reflexivity].
Ltac made_constructor := eexists; split; [lookup | split; reflexivity].

Section Loading.

Variable I : intrinsics.
Variable DEV : bool.
Variable ReactNoopUpdateQueue : value.
Variable host : nat -> value -> list value -> state -> completion * state.

(** X1: run where [Object.prototype] is as the language defines it, with
    call depth 3 or more, the module returns its scope and leaves the
    store [loaded]; it prints nothing, calls no host function, and keeps
    every object that was there.  In particular [Object.assign] of
    [Component.prototype] does not run the deprecation getters, which are
    not enumerable.  The properties proved of a [loaded] store are thus
    properties of the module's own statements. *)
Theorem ReactBaseClasses_loads s0 n op :
  heap s0 !! ObjectPrototype I = Some op -> pristine op ->
  loads I DEV s0 (ReactBaseClasses I DEV ReactNoopUpdateQueue host (3 + n) s0).
Proof.
  intros Hop Hpr. change (3 + n) with (S (S (S n))).
  unfold ReactBaseClasses.
  destruct DEV.
  - create I e Hpr. create I C Hpr. create I CP Hpr. create I m Hpr.
    create I ss Hpr. create I ssp Hpr. create I fu Hpr. create I fup Hpr.
    create I g1 Hpr. create I g1p Hpr. create I g2 Hpr. create I g2p Hpr.
    create I D Hpr. create I Dp Hpr. create I P Hpr. create I Pp Hpr.
    create I PP Hpr. repeat step Hpr.
    exists (Layout e C CP m ss fu g1 g2 P PP), (VRef D). eexists.
    split; [reflexivity|]. split; [|split; [reflexivity|]].
    + split; [ exists op; split; [lookup | exact Hpr] | lookup | made_constructor
             | lookup | made_function | made_function
             | intros _; made_function | intros _; made_function
             | made_constructor | lookup ].
    + intros l' o' Hin.
      repeat rewrite heap_upd_ne by (eapply fresh_ne; eassumption).
      exact Hin.
  - create I e Hpr. create I C Hpr. create I CP Hpr. create I m Hpr.
    create I ss Hpr. create I ssp Hpr. create I fu Hpr. create I fup Hpr.
    create I D Hpr. create I Dp Hpr. create I P Hpr. create I Pp Hpr.
    create I PP Hpr. repeat step Hpr.
    exists (Layout e C CP m ss fu e e P PP), (VRef D). eexists.
    split; [reflexivity|]. split; [|split; [reflexivity|]].
    + split; [ exists op; split; [lookup | exact Hpr] | lookup | made_constructor
             | lookup | made_function | made_function
             | discriminate | discriminate
             | made_constructor | lookup ].
    + intros l' o' Hin.
      repeat rewrite heap_upd_ne by (eapply fresh_ne; eassumption).
      exact Hin.
Qed.

End Loading.

(** ** Construction *)

Section Construction.

Variable I : intrinsics.
Variable DEV : bool.
Variable ReactNoopUpdateQueue : value.
Variable host : nat -> value -> list value -> state -> completion * state.
Variable L : layout.

Local Abbreviation loaded := (loaded I DEV L).
Local Abbreviation call := (call I ReactNoopUpdateQueue host).
Local Abbreviation new' := (new I ReactNoopUpdateQueue host).
Local Abbreviation fields :=
  (instance_fields (L_emptyObject L) ReactNoopUpdateQueue).

Local Abbreviation base_prototype := (base_prototype L).

Lemma resolve_unused s l o k d P :
  loaded s -> base_prototype P ->
  heap s !! l = Some o -> obj_proto o = VRef P ->
  own o k = None -> unused k = true ->
  find_prop (4 + d) (heap s) l k = Some None.
Proof.
  intros Hld HP Hl Hproto Hown Hk.
  destruct (ld_ObjectPrototype _ _ _ _ Hld) as (op & Hop & Hpr).
  destruct HP as [-> | ->].
  - change (4 + d) with (3 + S d).
    rewrite (resolve_Component I DEV L s op l o k (S d) Hld Hop Hpr Hl Hproto).
    now rewrite Hown, (via_Component_unused DEV L op k Hpr Hk).
  - rewrite (resolve_PureComponent I DEV L s op l o k d Hld Hop Hpr Hl Hproto).
    now rewrite Hown, (via_PureComponent_unused DEV L op k Hpr Hk).
Qed.

(** One field assignment of a constructor body, on the object being
    constructed. *)
Lemma assign_field cr s l fs k x d P :
  loaded s -> heap s !! l = None -> base_prototype P ->
  unused k = true -> assoc k fs = None ->
  set_prop I cr (4 + d) (VRef l) k x (upd l (Obj (VRef P) fs true None) s)
  = (Ret tt, upd l (Obj (VRef P) (fs ++ [(k, Data x true true true)]) true None) s).
Proof.
  intros Hld Hl HP Hk Hfs.
  pose proof (loaded_upd I DEV L s l (Obj (VRef P) fs true None) Hld Hl) as Hld'.
  pose proof (heap_upd_eq l (Obj (VRef P) fs true None) s) as Hl'.
  rewrite (set_prop_new I cr (4 + d) l k x _ _ Hl' eq_refl).
  - rewrite upd_upd. unfold with_prop. simpl. now rewrite (assoc_set_fresh _ _ _ Hfs).
  - now apply resolve_unused with (Obj (VRef P) fs true None) P.
Qed.

Lemma Component_body cr s l d P args :
  loaded s -> heap s !! l = None -> base_prototype P ->
  Component I ReactNoopUpdateQueue cr (4 + d) (L_emptyObject L) (VRef l) args
    (upd l (Obj (VRef P) [] true None) s)
  = (Ret VUndefined, upd l (Obj (VRef P) (fields args) true None) s).
Proof.
  intros Hld Hl HP. unfold Component.
  erewrite bind_ret by (now apply assign_field). simpl app.
  erewrite bind_ret by (now apply assign_field). simpl app.
  erewrite bind_ret by (now apply assign_field). simpl app.
  erewrite bind_ret by (now apply assign_field). simpl app.
  reflexivity.
Qed.

Lemma PureComponent_body cr s l d P args :
  loaded s -> heap s !! l = None -> base_prototype P ->
  PureComponent I ReactNoopUpdateQueue cr (4 + d) (L_emptyObject L) (VRef l) args
    (upd l (Obj (VRef P) [] true None) s)
  = (Ret VUndefined, upd l (Obj (VRef P) (fields args) true None) s).
Proof.
  intros Hld Hl HP. unfold PureComponent.
  erewrite bind_ret by (now apply assign_field). simpl app.
  erewrite bind_ret by (now apply assign_field). simpl app.
  erewrite bind_ret by (now apply assign_field). simpl app.
  erewrite bind_ret by (now apply assign_field). simpl app.
  reflexivity.
Qed.

Lemma constructor_prototype s l c P n :
  is_constructor s l c P ->
  get_prop I (call (S n)) (S n) (VRef l) "prototype" s = (Ret (VRef P), s).
Proof.
  intros (o & Hl & _ & Hown).
  apply get_prop_data with true false false.
  now apply find_prop_own with o.
Qed.

(** [new Component(...args)] *)
Lemma new_Component s n args :
  loaded s ->
  new' (5 + n) (VRef (L_Component L)) args s
  = (Ret (VRef (next_loc s)),
     upd (next_loc s)
       (Obj (VRef (L_ComponentPrototype L)) (fields args) true None) s).
Proof.
  intros Hld. unfold new, construct.
  pose proof (ld_Component _ _ _ _ Hld) as Hc.
  pose proof (next_loc_fresh s) as Hl.
  change (5 + n) with (S (4 + n)).
  rewrite (bind_ret _ _ _ _ _ (constructor_prototype s _ _ _ (4 + n) Hc)).
  rewrite (bind_ret _ _ _ _ _ (alloc_eq _ s)).
  erewrite bind_ret; cycle 1.
  { rewrite (call_function I ReactNoopUpdateQueue host (4 + n) _ (CComponent (L_emptyObject L))).
    - simpl run_code. apply Component_body; [assumption..|now left].
    - apply is_function_upd; [|assumption].
      eapply is_constructor_function; eassumption. }
  reflexivity.
Qed.

(** [new PureComponent(...args)] *)
Lemma new_PureComponent s n args :
  loaded s ->
  new' (5 + n) (VRef (L_PureComponent L)) args s
  = (Ret (VRef (next_loc s)),
     upd (next_loc s)
       (Obj (VRef (L_pureComponentPrototype L)) (fields args) true None) s).
Proof.
  intros Hld. unfold new, construct.
  pose proof (ld_PureComponent _ _ _ _ Hld) as Hc.
  pose proof (next_loc_fresh s) as Hl.
  change (5 + n) with (S (4 + n)).
  rewrite (bind_ret _ _ _ _ _ (constructor_prototype s _ _ _ (4 + n) Hc)).
  rewrite (bind_ret _ _ _ _ _ (alloc_eq _ s)).
  erewrite bind_ret; cycle 1.
  { rewrite (call_function I ReactNoopUpdateQueue host (4 + n) _ (CPureComponent (L_emptyObject L))).
    - simpl run_code. apply PureComponent_body; [assumption..|now right].
    - apply is_function_upd; [|assumption].
      eapply is_constructor_function; eassumption. }
  reflexivity.
Qed.

End Construction.

(** ** Instances right after construction *)

Section Instances.

Variable I : intrinsics.
Variable DEV : bool.
Variable ReactNoopUpdateQueue : value.
Variable host : nat -> value -> list value -> state -> completion * state.
Variable L : layout.

Local Abbreviation loaded := (loaded I DEV L).
Local Abbreviation new' := (new I ReactNoopUpdateQueue host).
Local Abbreviation get' := (get I ReactNoopUpdateQueue host).
Local Abbreviation set' := (set I ReactNoopUpdateQueue host).
Local Abbreviation fields :=
  (instance_fields (L_emptyObject L) ReactNoopUpdateQueue).

Lemma get_own_data s l o k x w e c n :
  heap s !! l = Some o -> own o k = Some (Data x w e c) ->
  get' (S n) (VRef l) k s = (Ret x, s).
Proof.
  intros Hl Hown. apply get_prop_data with w e c.
  now apply find_prop_own with o.
Qed.

Lemma via_PureComponent_same op k :
  k <> "constructor" -> k <> "isPureReactComponent" ->
  via_PureComponent DEV L op k = via_Component DEV L op k.
Proof.
  intros H1 H2. unfold via_PureComponent, via_Component.
  apply String.eqb_neq in H1, H2.
  unfold PureComponent_prototype_props, Component_prototype_props.
  simpl. rewrite H1, H2.
  destruct (String.eqb k "isReactComponent"); [reflexivity|].
  destruct (String.eqb k "setState"); [reflexivity|].
  destruct (String.eqb k "forceUpdate"); reflexivity.
Qed.

(** C4: constructing a [Component] stores the given props and context,
    and binds the updater: the given one when it is an object, the no-op
    placeholder [ReactNoopUpdateQueue] when none is given (in general,
    [updater || ReactNoopUpdateQueue]). *)
Theorem Component_stores_arguments s n props context updater :
  loaded s ->
  exists l s',
    new' (5 + n) (VRef (L_Component L)) [props; context; updater] s
    = (Ret (VRef l), s') /\
    get' (5 + n) (VRef l) "props" s' = (Ret props, s') /\
    get' (5 + n) (VRef l) "context" s' = (Ret context, s') /\
    get' (5 + n) (VRef l) "updater" s'
    = (Ret (or_else updater ReactNoopUpdateQueue), s') /\
    (forall u, updater = VRef u ->
               get' (5 + n) (VRef l) "updater" s' = (Ret (VRef u), s')) /\
    (exists l0 s0,
        new' (5 + n) (VRef (L_Component L)) [props; context] s
        = (Ret (VRef l0), s0) /\
        get' (5 + n) (VRef l0) "updater" s0 = (Ret ReactNoopUpdateQueue, s0)).
Proof.
  intros Hld.
  exists (next_loc s). eexists. split; [now apply new_Component with DEV|].
  pose proof (heap_upd_eq (next_loc s)
                (Obj (VRef (L_ComponentPrototype L))
                   (fields [props; context; updater]) true None) s) as Hl.
  repeat split.
  - now apply get_own_data with (1 := Hl) (w := true) (e := true) (c := true).
  - now apply get_own_data with (1 := Hl) (w := true) (e := true) (c := true).
  - now apply get_own_data with (1 := Hl) (w := true) (e := true) (c := true).
  - intros u ->.
    now apply get_own_data with (1 := Hl) (w := true) (e := true) (c := true).
  - exists (next_loc s). eexists. split; [now apply new_Component with DEV|].
    eapply get_own_data with (w := true) (e := true) (c := true);
      [apply heap_upd_eq|reflexivity].
Qed.

Lemma new_base s n args pure :
  loaded s ->
  new' (5 + n) (VRef (constructor_of L pure)) args s
  = (Ret (VRef (next_loc s)),
     upd (next_loc s) (Obj (VRef (prototype_of L pure)) (fields args) true None) s).
Proof.
  intros Hld. destruct pure; simpl.
  - now apply new_PureComponent with DEV.
  - now apply new_Component with DEV.
Qed.

Lemma base_prototype_of pure : base_prototype L (prototype_of L pure).
Proof. destruct pure; [now right|now left]. Qed.

(** C10: a base constructor creates one object, gives it exactly the four
    fields [props], [context], [refs] and [updater], and changes nothing
    else; [state] is not a field of the new object and reads
    [undefined]. *)
Theorem constructors_assign_four_fields s n args pure :
  loaded s ->
  exists l o s',
    new' (5 + n) (VRef (constructor_of L pure)) args s = (Ret (VRef l), s') /\
    heap s !! l = None /\
    heap s' !! l = Some o /\
    map fst (obj_props o) = ["props"; "context"; "refs"; "updater"] /\
    (forall l', l' <> l -> heap s' !! l' = heap s !! l') /\
    trace s' = trace s /\
    own o "state" = None /\
    get' (5 + n) (VRef l) "state" s' = (Ret VUndefined, s').
Proof.
  intros Hld.
  exists (next_loc s),
    (Obj (VRef (prototype_of L pure)) (fields args) true None).
  eexists. split; [now apply new_base|].
  pose proof (next_loc_fresh s) as Hfresh.
  repeat split; try reflexivity.
  - assumption.
  - apply heap_upd_eq.
  - intros l' Hne. now apply heap_upd_ne.
  - apply get_prop_absent.
    apply resolve_unused
      with I DEV L (Obj (VRef (prototype_of L pure)) (fields args) true None)
           (prototype_of L pure);
      try reflexivity.
    + now apply loaded_upd.
    + apply base_prototype_of.
    + apply heap_upd_eq.
Qed.

Lemma empty_placeholder_rejects s k x n :
  loaded s -> DEV = true -> is_standard k = false ->
  exists m,
    set' (2 + n) (VRef (L_emptyObject L)) k x s = (Throw (TypeError m), s).
Proof.
  intros Hld Hdev Hk.
  destruct (ld_ObjectPrototype _ _ _ _ Hld) as (op & Hop & Hpr).
  pose proof (ld_emptyObject _ _ _ _ Hld) as He.
  eapply set_prop_not_extensible; [exact He|simpl; now rewrite Hdev|].
  change (2 + n) with (S (S n)).
  rewrite (find_prop_step _ _ _ _ _ _ He eq_refl eq_refl).
  apply find_prop_end with op; [assumption|now apply pristine_own|apply Hpr].
Qed.

(** C3, as the code has it: right after construction the [refs] field of
    an instance of either class is the one shared empty placeholder
    object; construction leaves that object as it was, without
    properties; in development builds it is frozen, so that an assignment
    to it throws, and in production builds it is not. *)
Theorem refs_is_shared_placeholder s n args pure :
  loaded s ->
  exists l s' e,
    new' (5 + n) (VRef (constructor_of L pure)) args s = (Ret (VRef l), s') /\
    get' (5 + n) (VRef l) "refs" s' = (Ret (VRef (L_emptyObject L)), s') /\
    heap s !! L_emptyObject L = Some e /\
    heap s' !! L_emptyObject L = Some e /\
    obj_props e = [] /\
    is_frozen e = DEV /\
    (DEV = true ->
     forall k x, is_standard k = false ->
       exists m,
         set' (5 + n) (VRef (L_emptyObject L)) k x s' = (Throw (TypeError m), s')).
Proof.
  intros Hld.
  pose proof (ld_emptyObject _ _ _ _ Hld) as He.
  pose proof (next_loc_fresh s) as Hfresh.
  exists (next_loc s). eexists. eexists.
  split; [now apply new_base|].
  split.
  { eapply get_own_data with (w := true) (e := true) (c := true);
      [apply heap_upd_eq|reflexivity]. }
  split; [exact He|].
  split.
  { rewrite heap_upd_ne; [exact He|]. eapply fresh_ne; eassumption. }
  split; [reflexivity|].
  split; [simpl; now destruct DEV|].
  intros Hdev k x Hk.
  apply (empty_placeholder_rejects _ k x (3 + n)); try assumption.
  now apply loaded_upd.
Qed.


(** A new instance is an instance in the sense of [instance_of]. *)
Lemma new_instance_of s n args pure :
  loaded s ->
  exists l s',
    new' (5 + n) (VRef (constructor_of L pure)) args s = (Ret (VRef l), s') /\
    loaded s' /\
    instance_of (prototype_of L pure) s' l /\
    bound_updater s' l (or_else (arg 2 args) ReactNoopUpdateQueue) /\
    trace s' = trace s.
Proof.
  intros Hld. exists (next_loc s). eexists.
  split; [now apply new_base|].
  split; [apply loaded_upd; [assumption|apply next_loc_fresh]|].
  split.
  - eexists. split; [apply heap_upd_eq|]. split; reflexivity.
  - split; [|reflexivity].
    eexists. exists true, true, true. split; [apply heap_upd_eq|reflexivity].
Qed.

Lemma instance_inherits P s l k :
  instance_of P s l -> In k inherited_names ->
  exists o, heap s !! l = Some o /\ obj_proto o = VRef P /\ own o k = None.
Proof.
  intros (o & Hl & Hp & Hall) Hk. exists o. repeat split; try assumption.
  rewrite forallb_forall in Hall. specialize (Hall k Hk).
  destruct (own o k); [discriminate|reflexivity].
Qed.


End Instances.

(** ** Methods and deprecated members of an instance *)

Section Methods.

Variable I : intrinsics.
Variable DEV : bool.
Variable ReactNoopUpdateQueue : value.
Variable host : nat -> value -> list value -> state -> completion * state.
Variable L : layout.

Local Abbreviation loaded := (loaded I DEV L).
Local Abbreviation call := (call I ReactNoopUpdateQueue host).
Local Abbreviation get' := (get I ReactNoopUpdateQueue host).
Local Abbreviation invoke' := (invoke I ReactNoopUpdateQueue host).

(** What an instance of either class resolves an inherited name to. *)
Lemma instance_resolves s l k n :
  loaded s -> component_instance L s l -> In k inherited_names ->
  k <> "constructor" -> k <> "isPureReactComponent" ->
  exists op,
    heap s !! ObjectPrototype I = Some op /\ pristine op /\
    find_prop (4 + n) (heap s) l k = Some (via_Component DEV L op k).
Proof.
  intros Hld Hinst Hk H1 H2.
  destruct (ld_ObjectPrototype _ _ _ _ Hld) as (op & Hop & Hpr).
  exists op. split; [assumption|]. split; [assumption|].
  destruct Hinst as [Hinst|Hinst];
    destruct (instance_inherits _ _ _ k Hinst Hk) as (o & Hl & Hp & Hown).
  - change (4 + n) with (3 + S n).
    rewrite (resolve_Component I DEV L s op l o k (S n) Hld Hop Hpr Hl Hp).
    now rewrite Hown.
  - rewrite (resolve_PureComponent I DEV L s op l o k n Hld Hop Hpr Hl Hp).
    rewrite Hown. now rewrite via_PureComponent_same.
Qed.

(** The test of [setState] on its first argument. *)
Lemma validation (h : gmap loc object) v :
  String.eqb (typeof h v) "object" || String.eqb (typeof h v) "function"
  || loose_eq_null v
  = accepted v.
Proof.
  destruct v; try reflexivity. simpl.
  destruct (h !! l) as [[pr ps ex [c|]]|]; reflexivity.
Qed.

Lemma updater_field s l u n :
  bound_updater s l u ->
  get_prop I (call (S n)) (S n) (VRef l) "updater" s = (Ret u, s).
Proof.
  intros (o & w & e & c & Hl & Hown).
  apply get_prop_data with w e c. now apply find_prop_own with o.
Qed.

(** Calling through the updater reaches the host function. *)
Lemma updater_method s u k id m n args :
  exposes m s u k id -> m <= S n ->
  call_method I (call (S n)) (S n) u k args s
  = (let* r := host_call host id u args in ret r) s.
Proof.
  intros (lu & lf & w & e & c & -> & Hfind & Hf) Hm.
  unfold call_method.
  rewrite (bind_ret _ _ _ _ _
             (get_prop_data I _ _ _ _ _ _ w e c
                (find_prop_mono _ _ _ _ _ _ Hfind Hm))).
  rewrite (call_function I ReactNoopUpdateQueue host n lf (CHost id) _ _ _ Hf).
  simpl run_code. unfold bind.
  destruct (host_call host id (VRef lu) args s) as [[r| |] s']; reflexivity.
Qed.

Lemma host_call_forwarded id u args s :
  (host_call host id u args >> ret VUndefined) s = forwarded host id u args s.
Proof.
  unfold host_call, forwarded, bind, emit, ret. simpl.
  destruct (host id u args _) as [[r|x] s']; reflexivity.
Qed.

(** The call [inst.setState(...args)] is the body of [setState] run on the
    instance. *)
Lemma invoke_setState s l args n :
  loaded s -> component_instance L s l ->
  invoke' (4 + n) (VRef l) "setState" args s
  = setState I (call (3 + n)) (3 + n) (VRef l) args s.
Proof.
  intros Hld Hinst. unfold invoke, call_method.
  destruct (instance_resolves s l "setState" n Hld Hinst) as (op & _ & _ & Hfind);
    [simpl; tauto|discriminate|discriminate|].
  rewrite (bind_ret _ _ _ _ _
             (get_prop_data I _ _ _ _ _ _ true true true Hfind)).
  now rewrite (call_function I ReactNoopUpdateQueue host (3 + n) _ CSetState _ _ _
                 (ld_setState _ _ _ _ Hld)).
Qed.

Lemma invoke_forceUpdate s l args n :
  loaded s -> component_instance L s l ->
  invoke' (4 + n) (VRef l) "forceUpdate" args s
  = forceUpdate I (call (3 + n)) (3 + n) (VRef l) args s.
Proof.
  intros Hld Hinst. unfold invoke, call_method.
  destruct (instance_resolves s l "forceUpdate" n Hld Hinst) as (op & _ & _ & Hfind);
    [simpl; tauto|discriminate|discriminate|].
  rewrite (bind_ret _ _ _ _ _
             (get_prop_data I _ _ _ _ _ _ true true true Hfind)).
  now rewrite (call_function I ReactNoopUpdateQueue host (3 + n) _ CForceUpdate _ _ _
                 (ld_forceUpdate _ _ _ _ Hld)).
Qed.

Lemma setState_rejects cr d this args s :
  accepted (arg 0 args) = false ->
  setState I cr d this args s
  = (Throw (InvariantViolation setState_message), s).
Proof.
  intros Hv. unfold setState, bind. now rewrite validation, Hv.
Qed.

Lemma setState_accepts s l u id m n args :
  accepted (arg 0 args) = true ->
  bound_updater s l u -> exposes m s u "enqueueSetState" id -> m <= 3 + n ->
  setState I (call (3 + n)) (3 + n) (VRef l) args s
  = forwarded host id u
      [VRef l; arg 0 args; arg 1 args; VString "setState"] s.
Proof.
  intros Hv Hu Hex Hm. unfold setState.
  erewrite bind_ret; cycle 1.
  { rewrite validation, Hv. reflexivity. }
  rewrite (bind_ret _ _ _ _ _ (updater_field s l u (2 + n) Hu)).
  rewrite <- host_call_forwarded.
  unfold bind at 1.
  rewrite (updater_method s u _ id m (2 + n) _ Hex Hm).
  unfold bind.
  destruct (host_call host id u _ s) as [[r| |] s']; reflexivity.
Qed.

Lemma forceUpdate_forwards s l u id m n args :
  bound_updater s l u -> exposes m s u "enqueueForceUpdate" id -> m <= 3 + n ->
  forceUpdate I (call (3 + n)) (3 + n) (VRef l) args s
  = forwarded host id u [VRef l; arg 0 args; VString "forceUpdate"] s.
Proof.
  intros Hu Hex Hm. unfold forceUpdate.
  rewrite (bind_ret _ _ _ _ _ (updater_field s l u (2 + n) Hu)).
  rewrite <- host_call_forwarded.
  unfold bind at 1.
  rewrite (updater_method s u _ id m (2 + n) _ Hex Hm).
  unfold bind.
  destruct (host_call host id u _ s) as [[r| |] s']; reflexivity.
Qed.

(** C1: [setState(v, cb)] on an instance raises the invariant violation,
    with its descriptive message, exactly when [v] is neither an object,
    nor a function, nor null, nor undefined.  For every other [v] the call
    is the forwarding to the updater and raises nothing of its own: it
    returns when the updater's operation returns. *)
Theorem setState_validation s l v cb n :
  loaded s -> component_instance L s l ->
  (accepted v = false ->
   invoke' (4 + n) (VRef l) "setState" [v; cb] s
   = (Throw (InvariantViolation setState_message), s)) /\
  (forall u id m,
      bound_updater s l u -> exposes m s u "enqueueSetState" id -> m <= 3 + n ->
      ((exists msg s',
           invoke' (4 + n) (VRef l) "setState" [v; cb] s
           = (Throw (InvariantViolation msg), s'))
       <-> accepted v = false) /\
      (accepted v = true ->
       forall r st,
         host id u [VRef l; v; cb; VString "setState"]
           (State (heap s)
              (trace s ++ [HostCall id u [VRef l; v; cb; VString "setState"]]))
         = (Normal r, st) ->
         invoke' (4 + n) (VRef l) "setState" [v; cb] s = (Ret VUndefined, st))).
Proof.
  intros Hld Hinst. rewrite (invoke_setState s l _ n Hld Hinst).
  split.
  { intros Hv. now apply setState_rejects. }
  intros u id m Hu Hex Hm. split; [split|].
  - intros (msg & s' & H). destruct (accepted v) eqn:Hv; [|reflexivity].
    rewrite (setState_accepts s l u id m n [v; cb] Hv Hu Hex Hm) in H.
    unfold forwarded in H. simpl in H.
    destruct (host id u _ _) as [[r|x] st]; discriminate.
  - intros Hv. exists setState_message, s. now apply setState_rejects.
  - intros Hv r st Hhost.
    rewrite (setState_accepts s l u id m n [v; cb] Hv Hu Hex Hm).
    unfold forwarded, arg. simpl. now rewrite Hhost.
Qed.

(** C2: on an instance whose updater is [u], a [setState(p, cb)] that
    passes the validation is one call
    [u.enqueueSetState(instance, p, cb, 'setState')], made on the store as
    it is, and [forceUpdate(cb)] is one call
    [u.enqueueForceUpdate(instance, cb, 'forceUpdate')]. *)
Theorem setState_forceUpdate_forward s l u n :
  loaded s -> component_instance L s l -> bound_updater s l u ->
  (forall id m p cb,
      exposes m s u "enqueueSetState" id -> m <= 3 + n -> accepted p = true ->
      invoke' (4 + n) (VRef l) "setState" [p; cb] s
      = forwarded host id u [VRef l; p; cb; VString "setState"] s) /\
  (forall id m cb,
      exposes m s u "enqueueForceUpdate" id -> m <= 3 + n ->
      invoke' (4 + n) (VRef l) "forceUpdate" [cb] s
      = forwarded host id u [VRef l; cb; VString "forceUpdate"] s).
Proof.
  intros Hld Hinst Hu. split.
  - intros id m p cb Hex Hm Hp.
    rewrite (invoke_setState s l _ n Hld Hinst).
    now apply setState_accepts with m.
  - intros id m cb Hex Hm.
    rewrite (invoke_forceUpdate s l _ n Hld Hinst).
    now apply forceUpdate_forwards with m.
Qed.

(** C9: when [setState] raises the invariant violation, the store and the
    trace are what they were: nothing was forwarded to the updater and no
    field of the instance changed. *)
Theorem rejected_setState_has_no_effect s l u id m v cb n msg s' :
  loaded s -> component_instance L s l ->
  bound_updater s l u -> exposes m s u "enqueueSetState" id -> m <= 3 + n ->
  invoke' (4 + n) (VRef l) "setState" [v; cb] s
  = (Throw (InvariantViolation msg), s') ->
  s' = s /\ heap s' = heap s /\ trace s' = trace s /\ accepted v = false.
Proof.
  intros Hld Hinst Hu Hex Hm. rewrite (invoke_setState s l _ n Hld Hinst).
  destruct (accepted v) eqn:Hv.
  - rewrite (setState_accepts s l u id m n [v; cb] Hv Hu Hex Hm).
    unfold forwarded. simpl.
    destruct (host id u _ _) as [[r|x] st]; discriminate.
  - rewrite (setState_rejects _ _ _ [v; cb] s Hv).
    intros H. injection H as _ <-. auto.
Qed.

(** C8: in a development build, reading [isMounted] or [replaceState] on
    an instance yields [undefined] and prints one deprecation warning; the
    name resolves to an accessor of [Component.prototype] that has this
    getter and no setter.  In a production build the names resolve
    nowhere. *)
Theorem deprecated_member_access s l k n :
  loaded s -> component_instance L s l ->
  k = "isMounted" \/ k = "replaceState" ->
  (DEV = true ->
   get' (4 + n) (VRef l) k s
   = (Ret VUndefined, State (heap s) (trace s ++ [deprecation_warning k])) /\
   exists g,
     find_prop (4 + n) (heap s) l k
     = Some (Some (Accessor (VRef g) VUndefined false false)) /\
     is_function s g (CDeprecatedGetter (info_of k))) /\
  (DEV = false ->
   find_prop (4 + n) (heap s) l k = Some None /\
   get' (4 + n) (VRef l) k s = (Ret VUndefined, s)).
Proof.
  intros Hld Hinst Hk.
  destruct (instance_resolves s l k n Hld Hinst) as (op & Hop & Hpr & Hfind).
  { destruct Hk as [-> | ->]; simpl; tauto. }
  { destruct Hk as [-> | ->]; discriminate. }
  { destruct Hk as [-> | ->]; discriminate. }
  split; intros Hdev.
  - assert (exists g,
               via_Component DEV L op k
               = Some (Accessor (VRef g) VUndefined false false) /\
               is_function s g (CDeprecatedGetter (info_of k))) as (g & Hvia & Hg).
    { destruct Hk as [-> | ->]; unfold via_Component, Component_prototype_props;
        rewrite Hdev; simpl; eexists; (split; [reflexivity|]).
      - now apply (ld_isMounted _ _ _ _ Hld).
      - now apply (ld_replaceState _ _ _ _ Hld). }
    rewrite Hvia in Hfind. split; [|now exists g].
    unfold get.
    rewrite (get_prop_getter I _ _ _ _ _ _ _ _ _ Hfind).
    rewrite (call_function I ReactNoopUpdateQueue host (3 + n) g _ _ _ _ Hg).
    destruct Hk as [-> | ->]; reflexivity.
  - assert (via_Component DEV L op k = None) as Hvia.
    { unfold via_Component, Component_prototype_props. rewrite Hdev.
      destruct Hk as [-> | ->]; simpl; now apply pristine_own. }
    rewrite Hvia in Hfind. split; [assumption|now apply get_prop_absent].
Qed.

End Methods.

(** ** The facade *)

Lemma assoc_map {A B} (f : A -> B) (k : string) (l : list (string * A)) :
  assoc k (map (fun kv => (fst kv, f (snd kv))) l) = option_map f (assoc k l).
Proof.
  induction l as [|[k' a] l IH]; simpl; [reflexivity|].
  destruct (String.eqb k k'); [reflexivity|assumption].
Qed.

Section Facade.

Variable I : intrinsics.
Variable DEV : bool.
Variable enableStableConcurrentModeAPIs : bool.
Variable imp : imports.
Variable call_rec : value -> value -> list value -> M value.

Local Abbreviation React' := (React I DEV enableStableConcurrentModeAPIs imp call_rec).
Local Abbreviation statements :=
  (React_statements I DEV enableStableConcurrentModeAPIs imp call_rec).
Local Abbreviation get_prop := (get_prop I call_rec).
Local Abbreviation marker := (REACT_CONCURRENT_MODE_TYPE imp).

(** C7: the text of [React.js] has the lines [<<<<<<< HEAD], [=======] and
    [>>>>>>> fb6b508...] of an unfinished merge at lines 101, 109 and 113,
    outside any comment, where a statement is expected.  The module does
    not parse: whatever the flag, the build and the store, importing it
    throws a [SyntaxError] at line 101 and leaves the store as it was.  No
    statement is evaluated, so there is no namespace object, with or
    without [ConcurrentMode]. *)
Theorem React_conflict_markers s d :
  unexpected_lines 99 lines_99_114
  = [(101, "<<<<<<< HEAD");
     (109, "=======");
     (113, ">>>>>>> fb6b50871b2f0d846f63a51af7ce620ce6b73e48")] /\
  React' d s = (Throw (SyntaxError 101 "<<<<<<< HEAD"), s) /\
  (forall r s', React' d s <> (Ret r, s')).
Proof.
  assert (unexpected_lines 99 lines_99_114
          = [(101, "<<<<<<< HEAD");
             (109, "=======");
             (113, ">>>>>>> fb6b50871b2f0d846f63a51af7ce620ce6b73e48")]) as Hlines
    by (vm_compute; reflexivity).
  assert (React' d s = (Throw (SyntaxError 101 "<<<<<<< HEAD"), s)) as Hthrow
    by (unfold React; rewrite Hlines; reflexivity).
  split; [exact Hlines|]. split; [exact Hthrow|].
  intros r s' Hret. rewrite Hthrow in Hret. discriminate Hret.
Qed.

(** What the statements of the file would do, were they reached.  After
    the literal is built, the one thing done to the namespace object
    depends on [enableStableConcurrentModeAPIs].  With the flag on,
    [ConcurrentMode] is the marker type and [unstable_ConcurrentMode] is
    undefined; with the flag off, [unstable_ConcurrentMode] is the marker
    type and the object has no [ConcurrentMode].  Every other member is
    what the literal says, either way. *)
Lemma statements_apply_flag s d :
  (exists op, heap s !! ObjectPrototype I = Some op /\ pristine op) ->
  exists r s' o Children,
    statements (2 + d) s = (Ret (VRef r), s') /\
    heap s' !! r = Some o /\
    (enableStableConcurrentModeAPIs = true ->
     own o "ConcurrentMode" = Some (Data marker true true true) /\
     get_prop (2 + d) (VRef r) "ConcurrentMode" s' = (Ret marker, s') /\
     get_prop (2 + d) (VRef r) "unstable_ConcurrentMode" s' = (Ret VUndefined, s')) /\
    (enableStableConcurrentModeAPIs = false ->
     own o "ConcurrentMode" = None /\
     get_prop (2 + d) (VRef r) "ConcurrentMode" s' = (Ret VUndefined, s') /\
     get_prop (2 + d) (VRef r) "unstable_ConcurrentMode" s' = (Ret marker, s')) /\
    (forall k, k <> "ConcurrentMode" -> k <> "unstable_ConcurrentMode" ->
       own o k
       = option_map (fun v => Data v true true true)
           (assoc k (React_fields DEV imp Children))).
Proof.
  intros (op & Hop & Hpr).
  set (c := next_loc s).
  set (co := Obj (VRef (ObjectPrototype I))
               (map (fun kv => (fst kv, Data (snd kv) true true true))
                  (Children_fields imp)) true None).
  set (s1 := upd c co s).
  set (r := next_loc s1).
  set (ro := Obj (VRef (ObjectPrototype I))
               (map (fun kv => (fst kv, Data (snd kv) true true true))
                  (React_fields DEV imp (VRef c))) true None).
  set (s2 := upd r ro s1).
  assert (heap s2 !! r = Some ro) as Hr by apply heap_upd_eq.
  assert (forall o', heap (upd r o' s1) !! ObjectPrototype I = Some op) as Hop2.
  { intros o'. rewrite heap_upd_ne.
    - unfold s1. rewrite heap_upd_ne; [assumption|].
      eapply fresh_ne; [apply next_loc_fresh|eassumption].
    - eapply fresh_ne; [apply next_loc_fresh|].
      unfold s1. rewrite heap_upd_ne; [eassumption|].
      eapply fresh_ne; [apply next_loc_fresh|eassumption]. }
  assert (forall o' k, own o' k = None -> obj_proto o' = VRef (ObjectPrototype I) ->
                       is_standard k = false ->
                       find_prop (2 + d) (heap (upd r o' s1)) r k = Some None)
    as Habsent.
  { intros o' k Hown Hproto Hk. change (2 + d) with (S (S d)).
    rewrite (find_prop_step _ _ _ _ _ _ (heap_upd_eq r o' s1) Hown Hproto).
    apply find_prop_end with op; [apply Hop2|now apply pristine_own|apply Hpr]. }
  assert (object_literal I (Children_fields imp) s = (Ret (VRef c), s1)) as E1
    by apply object_literal_eq.
  assert (object_literal I (React_fields DEV imp (VRef c)) s1 = (Ret (VRef r), s2))
    as E2 by apply object_literal_eq.
  exists r.
  destruct enableStableConcurrentModeAPIs eqn:Hflag.
  - set (o1 := with_prop "ConcurrentMode" (Data marker true true true) ro).
    set (o2 := with_prop "unstable_ConcurrentMode" (Data VUndefined true true true) o1).
    exists (upd r o2 s1), o2, (VRef c).
    assert (React_statements I DEV true imp call_rec (2 + d) s
            = (Ret (VRef r), upd r o2 s1)) as Hrun.
    { unfold React_statements.
      rewrite (bind_ret _ _ _ _ _ E1), (bind_ret _ _ _ _ _ E2).
      erewrite bind_ret; [reflexivity|].
      erewrite bind_ret; cycle 1.
      { apply set_prop_new with (o := ro); [exact Hr|reflexivity|].
        now apply Habsent. }
      unfold s2. rewrite upd_upd. fold o1.
      erewrite set_prop_own with (o := o1) (y := marker) (e := true) (c := true);
        [now rewrite upd_upd|apply heap_upd_eq|reflexivity|lia]. }
    split; [exact Hrun|].
    split; [apply heap_upd_eq|].
    split; [|split; [discriminate|]].
    + intros _. split; [reflexivity|]. split.
      * apply get_prop_data with true true true.
        now apply find_prop_own with o2; [apply heap_upd_eq|].
      * apply get_prop_data with true true true.
        now apply find_prop_own with o2; [apply heap_upd_eq|].
    + intros k H1 H2. unfold o2, o1.
      rewrite own_with_prop_ne by congruence.
      rewrite own_with_prop_ne by congruence.
      exact (assoc_map (fun v => Data v true true true) k
               (React_fields DEV imp (VRef c))).
  - exists s2, ro, (VRef c).
    split.
    { unfold React_statements.
      now rewrite (bind_ret _ _ _ _ _ E1), (bind_ret _ _ _ _ _ E2). }
    split; [exact Hr|].
    split; [discriminate|]. split.
    + intros _. split; [reflexivity|]. split.
      * apply get_prop_absent. now apply Habsent.
      * apply get_prop_data with true true true.
        now apply find_prop_own with ro.
    + intros k _ _.
      exact (assoc_map (fun v => Data v true true true) k
               (React_fields DEV imp (VRef c))).
Qed.

End Facade.

(** ** Further uses of the classes *)

Section InstanceUse.

Variable I : intrinsics.
Variable DEV : bool.
Variable ReactNoopUpdateQueue : value.
Variable host : nat -> value -> list value -> state -> completion * state.
Variable L : layout.

Local Abbreviation loaded := (loaded I DEV L).
Local Abbreviation call := (call I ReactNoopUpdateQueue host).
Local Abbreviation new' := (new I ReactNoopUpdateQueue host).
Local Abbreviation get' := (get I ReactNoopUpdateQueue host).
Local Abbreviation set' := (set I ReactNoopUpdateQueue host).
Local Abbreviation invoke' := (invoke I ReactNoopUpdateQueue host).
Local Abbreviation fields :=
  (instance_fields (L_emptyObject L) ReactNoopUpdateQueue).

Lemma set_prop_getter_only cr d l k x s g e c :
  find_prop d (heap s) l k = Some (Some (Accessor g VUndefined e c)) ->
  set_prop I cr d (VRef l) k x s
  = (Throw (TypeError "Cannot set property which has only a getter"), s).
Proof. intros H. unfold set_prop. simpl. now rewrite H. Qed.

(** X2: assigning to a deprecated member.  In a development build
    [isMounted] and [replaceState] are accessors of [Component.prototype]
    that have a getter and no setter, so [inst.isMounted = x] in strict
    code throws a [TypeError] and leaves the store as it was, on an
    instance of either class.  In a production build the names are not
    defined anywhere and the assignment makes an ordinary own field. *)
Theorem deprecated_member_assignment s l k x n :
  loaded s -> component_instance L s l ->
  k = "isMounted" \/ k = "replaceState" ->
  (DEV = true ->
   exists msg, set' (4 + n) (VRef l) k x s = (Throw (TypeError msg), s)) /\
  (DEV = false ->
   forall o, heap s !! l = Some o -> obj_extensible o = true ->
     set' (4 + n) (VRef l) k x s
     = (Ret tt, upd l (with_prop k (Data x true true true) o) s)).
Proof.
  intros Hld Hinst Hk.
  destruct (instance_resolves I DEV L s l k n Hld Hinst)
    as (op & Hop & Hpr & Hfind).
  { destruct Hk as [-> | ->]; simpl; tauto. }
  { destruct Hk as [-> | ->]; discriminate. }
  { destruct Hk as [-> | ->]; discriminate. }
  split; intros Hdev.
  - eexists. unfold set.
    destruct Hk as [-> | ->];
      unfold via_Component, Component_prototype_props in Hfind;
      rewrite Hdev in Hfind; simpl in Hfind;
      eapply set_prop_getter_only; exact Hfind.
  - intros o Hl Hext.
    assert (via_Component DEV L op k = None) as Hvia.
    { unfold via_Component, Component_prototype_props. rewrite Hdev.
      destruct Hk as [-> | ->]; simpl; now apply pristine_own. }
    rewrite Hvia in Hfind. unfold set. now apply set_prop_new.
Qed.


(** A method call on a value that has no such method, or none that is a
    function, is a type error. *)
Lemma call_method_missing n d u b k args s :
  base_of I u = Some b -> find_prop d (heap s) b k = Some None ->
  call_method I (call (S n)) d u k args s
  = (Throw (TypeError "not a function"), s).
Proof.
  intros Hb Hfind. unfold call_method, bind, get_prop. now rewrite Hb, Hfind.
Qed.

Lemma call_method_of_nothing cr d u k args s :
  base_of I u = None ->
  call_method I cr d u k args s
  = (Throw (TypeError "Cannot read property of undefined or null"), s).
Proof. intros Hb. unfold call_method, bind, get_prop. now rewrite Hb. Qed.

(** X3: [setState] and [forceUpdate] do not look at what the updater is
    before they call into it.  When the instance's updater is an object
    that has no [enqueueSetState] (no [enqueueForceUpdate]) the call
    throws a [TypeError], for [setState] after the argument has passed its
    validation; when the updater field holds undefined or null the member
    access itself throws.  Either way the store is left as it was. *)
Theorem updater_without_operation s l u n :
  loaded s -> component_instance L s l -> bound_updater s l u ->
  (forall b m p cb,
      base_of I u = Some b ->
      find_prop m (heap s) b "enqueueSetState" = Some None -> m <= 3 + n ->
      accepted p = true ->
      invoke' (4 + n) (VRef l) "setState" [p; cb] s
      = (Throw (TypeError "not a function"), s)) /\
  (forall b m cb,
      base_of I u = Some b ->
      find_prop m (heap s) b "enqueueForceUpdate" = Some None -> m <= 3 + n ->
      invoke' (4 + n) (VRef l) "forceUpdate" [cb] s
      = (Throw (TypeError "not a function"), s)) /\
  (base_of I u = None ->
   forall p cb,
     accepted p = true ->
     invoke' (4 + n) (VRef l) "setState" [p; cb] s
     = (Throw (TypeError "Cannot read property of undefined or null"), s) /\
     invoke' (4 + n) (VRef l) "forceUpdate" [cb] s
     = (Throw (TypeError "Cannot read property of undefined or null"), s)).
Proof.
  intros Hld Hinst Hu.
  pose proof (updater_field I ReactNoopUpdateQueue host s l u (2 + n) Hu) as Hget.
  split; [|split].
  - intros b m p cb Hb Hfind Hm Hp.
    rewrite (invoke_setState I DEV ReactNoopUpdateQueue host L s l _ n Hld Hinst).
    unfold setState.
    erewrite bind_ret; cycle 1.
    { rewrite validation. unfold arg. simpl. rewrite Hp. reflexivity. }
    rewrite (bind_ret _ _ _ _ _ Hget).
    apply bind_throw. apply call_method_missing with b; [assumption|].
    now apply find_prop_mono with m.
  - intros b m cb Hb Hfind Hm.
    rewrite (invoke_forceUpdate I DEV ReactNoopUpdateQueue host L s l _ n Hld Hinst).
    unfold forceUpdate.
    rewrite (bind_ret _ _ _ _ _ Hget).
    apply bind_throw. apply call_method_missing with b; [assumption|].
    now apply find_prop_mono with m.
  - intros Hb p cb Hp. split.
    + rewrite (invoke_setState I DEV ReactNoopUpdateQueue host L s l _ n Hld Hinst).
      unfold setState.
      erewrite bind_ret; cycle 1.
      { rewrite validation. unfold arg. simpl. rewrite Hp. reflexivity. }
      rewrite (bind_ret _ _ _ _ _ Hget).
      apply bind_throw. now apply call_method_of_nothing.
    + rewrite (invoke_forceUpdate I DEV ReactNoopUpdateQueue host L s l _ n Hld Hinst).
      unfold forceUpdate.
      rewrite (bind_ret _ _ _ _ _ Hget).
      apply bind_throw. now apply call_method_of_nothing.
Qed.

(** X4: [(new F(...)).constructor] is [F] for both classes.  For
    [PureComponent] this is the work of the assignment
    [pureComponentPrototype.constructor = PureComponent], and of
    [Object.assign] not copying [Component.prototype.constructor], which
    is not enumerable, over it. *)
Theorem constructor_round_trip s n args pure :
  loaded s ->
  exists l s',
    new' (5 + n) (VRef (constructor_of L pure)) args s = (Ret (VRef l), s') /\
    get' (5 + n) (VRef l) "constructor" s'
    = (Ret (VRef (constructor_of L pure)), s').
Proof.
  intros Hld.
  pose proof (next_loc_fresh s) as Hfresh.
  destruct (ld_ObjectPrototype _ _ _ _ Hld) as (op & Hop & Hpr).
  set (l := next_loc s) in *.
  set (o := Obj (VRef (prototype_of L pure)) (fields args) true None).
  assert (loaded (upd l o s)) as Hld' by now apply loaded_upd.
  assert (heap (upd l o s) !! ObjectPrototype I = Some op) as Hop'.
  { rewrite heap_upd_ne; [assumption|]. eapply fresh_ne; eassumption. }
  exists l, (upd l o s).
  split; [now apply new_base with DEV|].
  apply get_prop_data with true (if pure then true else false) true.
  destruct pure; simpl prototype_of in *; simpl constructor_of.
  - change (5 + n) with (4 + S n).
    now rewrite (resolve_PureComponent I DEV L _ op l o "constructor" (S n)
                   Hld' Hop' Hpr (heap_upd_eq l o s) eq_refl).
  - change (5 + n) with (3 + S (S n)).
    now rewrite (resolve_Component I DEV L _ op l o "constructor" (S (S n))
                   Hld' Hop' Hpr (heap_upd_eq l o s) eq_refl).
Qed.


Lemma in_chain_hit d (h : gmap loc object) l o p :
  h !! l = Some o -> obj_proto o = VRef p ->
  in_chain (S d) h (VRef l) p = Some true.
Proof. intros Hl Hp. simpl. now rewrite Hl, Hp, Nat.eqb_refl. Qed.

Lemma in_chain_step d (h : gmap loc object) l o q p :
  h !! l = Some o -> obj_proto o = VRef q -> q <> p ->
  in_chain (S d) h (VRef l) p = in_chain d h (VRef q) p.
Proof.
  intros Hl Hq Hne. apply Nat.eqb_neq in Hne. simpl. now rewrite Hl, Hq, Hne.
Qed.

Lemma in_chain_end d (h : gmap loc object) l o p :
  h !! l = Some o -> obj_proto o = VNull ->
  in_chain (S d) h (VRef l) p = Some false.
Proof. intros Hl Hp. simpl. now rewrite Hl, Hp. Qed.

(** The two prototype objects and [Object.prototype] are three objects. *)
Lemma prototypes_differ s :
  loaded s ->
  L_ComponentPrototype L <> L_pureComponentPrototype L /\
  ObjectPrototype I <> L_pureComponentPrototype L.
Proof.
  intros Hld.
  pose proof (ld_ComponentPrototype _ _ _ _ Hld) as Hcp.
  pose proof (ld_pureComponentPrototype _ _ _ _ Hld) as Hpp.
  destruct (ld_ObjectPrototype _ _ _ _ Hld) as (op & Hop & Hnull & _).
  split; intros E.
  - rewrite E, Hpp in Hcp. unfold Component_prototype_props in Hcp.
    simpl in Hcp. discriminate Hcp.
  - rewrite E, Hpp in Hop. injection Hop as <-. discriminate Hnull.
Qed.

(** X5: the chain set up through [ComponentDummy].  An instance of
    [PureComponent] is [instanceof PureComponent] and [instanceof
    Component]; an instance of [Component] is [instanceof Component] and
    not [instanceof PureComponent]. *)
Theorem instanceof_classes s n :
  loaded s ->
  (forall l, instance_of (L_pureComponentPrototype L) s l ->
     instanceof I (call (3 + n)) (3 + n) (VRef l) (VRef (L_PureComponent L)) s
     = (Ret true, s) /\
     instanceof I (call (3 + n)) (3 + n) (VRef l) (VRef (L_Component L)) s
     = (Ret true, s)) /\
  (forall l, instance_of (L_ComponentPrototype L) s l ->
     instanceof I (call (3 + n)) (3 + n) (VRef l) (VRef (L_Component L)) s
     = (Ret true, s) /\
     instanceof I (call (3 + n)) (3 + n) (VRef l) (VRef (L_PureComponent L)) s
     = (Ret false, s)).
Proof.
  intros Hld.
  destruct (prototypes_differ s Hld) as [Hcp_pp Hop_pp].
  pose proof (ld_ComponentPrototype _ _ _ _ Hld) as Hcp.
  pose proof (ld_pureComponentPrototype _ _ _ _ Hld) as Hpp.
  destruct (ld_ObjectPrototype _ _ _ _ Hld) as (op & Hop & Hnull & _).
  pose proof (constructor_prototype I ReactNoopUpdateQueue host s _ _ _ (2 + n)
                (ld_Component _ _ _ _ Hld)) as HC.
  pose proof (constructor_prototype I ReactNoopUpdateQueue host s _ _ _ (2 + n)
                (ld_PureComponent _ _ _ _ Hld)) as HP.
  change (3 + n) with (S (S (S n))) in *.
  split; intros l (o & Hl & Hproto & _); split; unfold instanceof.
  - rewrite (bind_ret _ _ _ _ _ HP).
    now rewrite (in_chain_hit _ _ _ _ _ Hl Hproto).
  - rewrite (bind_ret _ _ _ _ _ HC).
    rewrite (in_chain_step _ _ _ _ _ _ Hl Hproto (not_eq_sym Hcp_pp)).
    now rewrite (in_chain_hit _ _ _ _ _ Hpp eq_refl).
  - rewrite (bind_ret _ _ _ _ _ HC).
    now rewrite (in_chain_hit _ _ _ _ _ Hl Hproto).
  - rewrite (bind_ret _ _ _ _ _ HP).
    rewrite (in_chain_step _ _ _ _ _ _ Hl Hproto Hcp_pp).
    rewrite (in_chain_step _ _ _ _ _ _ Hcp eq_refl Hop_pp).
    now rewrite (in_chain_end _ _ _ _ _ Hop Hnull).
Qed.


(** Two instances made one after the other. *)
Lemma two_instances s n args1 args2 pure1 pure2 :
  loaded s ->
  exists a b,
    heap s !! a = None /\ heap s !! b = None /\ a <> b /\
    new' (5 + n) (VRef (constructor_of L pure1)) args1 s
    = (Ret (VRef a),
       upd a (Obj (VRef (prototype_of L pure1)) (fields args1) true None) s) /\
    new' (5 + n) (VRef (constructor_of L pure2)) args2
      (upd a (Obj (VRef (prototype_of L pure1)) (fields args1) true None) s)
    = (Ret (VRef b),
       upd b (Obj (VRef (prototype_of L pure2)) (fields args2) true None)
         (upd a (Obj (VRef (prototype_of L pure1)) (fields args1) true None) s)).
Proof.
  intros Hld.
  set (a := next_loc s).
  set (o1 := Obj (VRef (prototype_of L pure1)) (fields args1) true None).
  pose proof (next_loc_fresh s) as Ha. fold a in Ha.
  pose proof (next_loc_fresh (upd a o1 s)) as Hb.
  apply upd_fresh in Hb as [Hb Hab].
  exists a, (next_loc (upd a o1 s)).
  repeat split; try assumption.
  - now apply new_base with DEV.
  - apply new_base with DEV. now apply loaded_upd.
Qed.

(** X6: in a production build the placeholder [emptyObject] is state
    shared by all instances: a property written through the [refs] of one
    instance is read through the [refs] of any other instance, of either
    class. *)
Theorem production_placeholder_is_shared s n args1 args2 pure1 pure2 k x :
  DEV = false -> loaded s -> is_standard k = false ->
  exists a b s1 s2 s3,
    new' (5 + n) (VRef (constructor_of L pure1)) args1 s = (Ret (VRef a), s1) /\
    new' (5 + n) (VRef (constructor_of L pure2)) args2 s1 = (Ret (VRef b), s2) /\
    a <> b /\
    (let* r := get' (5 + n) (VRef a) "refs" in set' (5 + n) r k x) s2
    = (Ret tt, s3) /\
    (let* r := get' (5 + n) (VRef b) "refs" in get' (5 + n) r k) s3
    = (Ret x, s3).
Proof.
  intros Hdev Hld Hk.
  destruct (two_instances s n args1 args2 pure1 pure2 Hld)
    as (a & b & Ha & Hb & Hab & Hnew1 & Hnew2).
  set (o1 := Obj (VRef (prototype_of L pure1)) (fields args1) true None) in *.
  set (o2 := Obj (VRef (prototype_of L pure2)) (fields args2) true None) in *.
  set (s2 := upd b o2 (upd a o1 s)) in *.
  assert (loaded s2) as Hld2.
  { apply loaded_upd; [now apply loaded_upd|].
    rewrite heap_upd_ne; [assumption|congruence]. }
  destruct (ld_ObjectPrototype _ _ _ _ Hld2) as (op & Hop & Hpr).
  pose proof (ld_emptyObject _ _ _ _ Hld2) as He. rewrite Hdev in He.
  cbn [negb] in He.
  set (e := L_emptyObject L) in *.
  set (E := Obj (VRef (ObjectPrototype I)) [] true None) in *.
  assert (e <> b) as Heb.
  { apply not_eq_sym. eapply fresh_ne; [exact Hb|].
    exact (ld_emptyObject _ _ _ _ Hld). }
  assert (heap s2 !! a = Some o1) as Ha2.
  { unfold s2. rewrite heap_upd_ne by congruence. apply heap_upd_eq. }
  assert (heap s2 !! b = Some o2) as Hb2 by apply heap_upd_eq.
  set (s3 := upd e (with_prop k (Data x true true true) E) s2).
  assert (heap s3 !! b = Some o2) as Hb3.
  { unfold s3. now rewrite heap_upd_ne. }
  exists a, b, (upd a o1 s), s2, s3.
  split; [exact Hnew1|]. split; [exact Hnew2|]. split; [exact Hab|].
  split.
  - rewrite (bind_ret _ _ _ _ _
               (get_own_data I ReactNoopUpdateQueue host s2 a o1 "refs" _
                  true true true (4 + n) Ha2 eq_refl)).
    unfold set. apply set_prop_new; [exact He|reflexivity|].
    change (5 + n) with (S (S (3 + n))).
    rewrite (find_prop_step _ _ _ _ _ _ He eq_refl eq_refl).
    apply find_prop_end with op; [assumption|now apply pristine_own|apply Hpr].
  - rewrite (bind_ret _ _ _ _ _
               (get_own_data I ReactNoopUpdateQueue host s3 b o2 "refs" _
                  true true true (4 + n) Hb3 eq_refl)).
    apply (get_own_data I ReactNoopUpdateQueue host s3 e
             (with_prop k (Data x true true true) E) k x true true true (4 + n)).
    + apply heap_upd_eq.
    + apply own_with_prop_eq.
Qed.

(** Looking a name up from an object of the store is not affected by a
    new object. *)
Lemma find_prop_upd_fresh d s l o lu k r :
  heap s !! l = None -> find_prop d (heap s) lu k = Some r ->
  find_prop d (heap (upd l o s)) lu k = Some r.
Proof.
  intros Hl. revert lu. induction d as [|d IH]; intros lu H; [discriminate|].
  simpl in *.
  destruct (heap s !! lu) as [ou|] eqn:Hlu; [|discriminate].
  rewrite lookup_insert_ne by (eapply fresh_ne; eassumption). rewrite Hlu.
  destruct (own ou k); [assumption|].
  destruct (obj_proto ou); try assumption. now apply IH.
Qed.

Lemma exposes_upd_fresh m s l o u k id :
  heap s !! l = None -> exposes m s u k id -> exposes m (upd l o s) u k id.
Proof.
  intros Hl (lu & lf & w & e & c & -> & Hfind & Hf).
  exists lu, lf, w, e, c. split; [reflexivity|]. split.
  - now apply find_prop_upd_fresh.
  - now apply is_function_upd.
Qed.

(** X7: the updater is read from the instance at the time of the call.
    After [inst.updater = u] on a new instance of either class, whatever
    updater it was constructed with, [setState] with an accepted argument
    is the one call of [u.enqueueSetState]. *)
Theorem injected_updater_is_used s n args pure u id m p cb :
  loaded s -> exposes m s u "enqueueSetState" id -> m <= 4 + n ->
  accepted p = true ->
  exists l s1 s2,
    new' (5 + n) (VRef (constructor_of L pure)) args s = (Ret (VRef l), s1) /\
    set' (5 + n) (VRef l) "updater" u s1 = (Ret tt, s2) /\
    invoke' (5 + n) (VRef l) "setState" [p; cb] s2
    = forwarded host id u [VRef l; p; cb; VString "setState"] s2.
Proof.
  intros Hld Hex Hm Hp.
  pose proof (next_loc_fresh s) as Hfresh.
  set (l := next_loc s) in *.
  set (o := Obj (VRef (prototype_of L pure)) (fields args) true None).
  set (o' := with_prop "updater" (Data u true true true) o).
  exists l, (upd l o s), (upd l o' s).
  split; [now apply new_base with DEV|].
  split.
  { unfold set. erewrite set_prop_own with (o := o) (e := true) (c := true);
      [now rewrite upd_upd|apply heap_upd_eq|reflexivity|lia]. }
  assert (loaded (upd l o' s)) as Hld' by now apply loaded_upd.
  assert (component_instance L (upd l o' s) l) as Hinst.
  { destruct pure; [right|left];
      (exists o'; split; [apply heap_upd_eq|split; reflexivity]). }
  assert (bound_updater (upd l o' s) l u) as Hu.
  { exists o', true, true, true. split; [apply heap_upd_eq|reflexivity]. }
  change (5 + n) with (4 + S n).
  rewrite (invoke_setState I DEV ReactNoopUpdateQueue host L _ l _ (S n) Hld' Hinst).
  apply (setState_accepts I ReactNoopUpdateQueue host _ l u id m (S n) [p; cb]);
    try assumption.
  now apply exposes_upd_fresh.
Qed.


(** What a name that may be assigned resolves to on the prototypes: nothing,
    or a writable data property. *)
Lemma via_Component_assignable op k :
  pristine op ->
  k = "constructor" \/ is_standard k = false ->
  (DEV = true -> k <> "isMounted" /\ k <> "replaceState") ->
  via_Component DEV L op k = None \/
  exists y e c, via_Component DEV L op k = Some (Data y true e c).
Proof.
  intros Hpr Hk Hdep. unfold via_Component, Component_prototype_props. simpl.
  destruct (String.eqb_spec k "constructor") as [->|Hc]; [right; eauto|].
  destruct (String.eqb k "isReactComponent"); [right; eauto|].
  destruct (String.eqb k "setState"); [right; eauto|].
  destruct (String.eqb k "forceUpdate"); [right; eauto|].
  assert (own op k = None) as Hown.
  { apply pristine_own; [assumption|]. destruct Hk; [contradiction|assumption]. }
  destruct DEV; simpl.
  - destruct (Hdep eq_refl) as [H1 H2].
    apply String.eqb_neq in H1, H2. rewrite H1, H2. now left.
  - now left.
Qed.

Lemma via_PureComponent_assignable op k :
  pristine op ->
  k = "constructor" \/ is_standard k = false ->
  (DEV = true -> k <> "isMounted" /\ k <> "replaceState") ->
  via_PureComponent DEV L op k = None \/
  exists y e c, via_PureComponent DEV L op k = Some (Data y true e c).
Proof.
  intros Hpr Hk Hdep. unfold via_PureComponent, PureComponent_prototype_props.
  simpl.
  destruct (String.eqb k "constructor"); [right; eauto|].
  destruct (String.eqb k "isReactComponent"); [right; eauto|].
  destruct (String.eqb k "setState"); [right; eauto|].
  destruct (String.eqb k "forceUpdate"); [right; eauto|].
  destruct (String.eqb k "isPureReactComponent"); [right; eauto|].
  now apply via_Component_assignable.
Qed.

(** X8: a new instance of either class takes assignments to its members.
    For [state], for a subclass's own method names, for the inherited
    [setState], [forceUpdate], [isReactComponent], [isPureReactComponent]
    and [constructor] (every name but those of [Object.prototype] and, in
    a development build, the two deprecated ones), [inst.k = x] returns,
    [inst.k] then reads [x], the four fields the constructor set are as
    they were unless [k] is one of them, and no other object and nothing
    of the trace changes: the prototypes are not written through. *)
Theorem instance_member_round_trip s n args pure k x :
  loaded s ->
  k = "constructor" \/ is_standard k = false ->
  (DEV = true -> k <> "isMounted" /\ k <> "replaceState") ->
  exists l s1 s2 o2,
    new' (5 + n) (VRef (constructor_of L pure)) args s = (Ret (VRef l), s1) /\
    set' (5 + n) (VRef l) k x s1 = (Ret tt, s2) /\
    get' (5 + n) (VRef l) k s2 = (Ret x, s2) /\
    heap s2 !! l = Some o2 /\
    (forall k', k' <> k -> own o2 k' = assoc k' (fields args)) /\
    (forall l', l' <> l -> heap s2 !! l' = heap s !! l') /\
    trace s2 = trace s.
Proof.
  intros Hld Hk Hdep.
  pose proof (next_loc_fresh s) as Hfresh.
  set (l := next_loc s) in *.
  set (o := Obj (VRef (prototype_of L pure)) (fields args) true None).
  assert (loaded (upd l o s)) as Hld1 by now apply loaded_upd.
  destruct (ld_ObjectPrototype _ _ _ _ Hld1) as (op & Hop & Hpr).
  pose proof (heap_upd_eq l o s) as Hl.
  assert (exists p,
             set' (5 + n) (VRef l) k x (upd l o s)
             = (Ret tt, upd l (with_prop k p o) s) /\
             exists e c, p = Data x true e c) as (p & Hset & e & c & ->).
  { unfold set. destruct (own o k) as [q|] eqn:Hown.
    - assert (exists y, q = Data y true true true) as (y & ->).
      { unfold own, o, instance_fields in Hown. simpl in Hown.
        repeat match type of Hown with
               | (if ?b then _ else _) = _ => destruct b
               end; try discriminate; injection Hown as <-; eauto. }
      exists (Data x true true true). split; [|eauto].
      rewrite (set_prop_own I _ (5 + n) l k x _ o y true true Hl Hown); [|lia].
      now rewrite upd_upd.
    - assert (find_prop (5 + n) (heap (upd l o s)) l k = Some None \/
              exists y e c,
                find_prop (5 + n) (heap (upd l o s)) l k
                = Some (Some (Data y true e c))) as [Hfind|(y & e & c & Hfind)].
      { destruct pure.
        - change (5 + n) with (4 + S n).
          rewrite (resolve_PureComponent I DEV L _ op l o k (S n) Hld1 Hop Hpr
                     Hl eq_refl), Hown.
          destruct (via_PureComponent_assignable op k Hpr Hk Hdep)
            as [->|(y & e & c & ->)]; [now left|right; eauto].
        - change (5 + n) with (3 + S (S n)).
          rewrite (resolve_Component I DEV L _ op l o k (S (S n)) Hld1 Hop Hpr
                     Hl eq_refl), Hown.
          destruct (via_Component_assignable op k Hpr Hk Hdep)
            as [->|(y & e & c & ->)]; [now left|right; eauto]. }
      + exists (Data x true true true). split; [|eauto].
        rewrite (set_prop_new I _ (5 + n) l k x _ o Hl eq_refl Hfind).
        now rewrite upd_upd.
      + exists (Data x true true true). split; [|eauto].
        rewrite (set_prop_shadow I _ (5 + n) l k x _ o y e c Hl eq_refl Hown Hfind).
        now rewrite upd_upd. }
  exists l, (upd l o s), (upd l (with_prop k (Data x true e c) o) s),
    (with_prop k (Data x true e c) o).
  split; [now apply new_base with DEV|].
  split; [exact Hset|].
  split.
  { apply (get_own_data I ReactNoopUpdateQueue host _ l
             (with_prop k (Data x true e c) o) k x true e c (4 + n)).
    - apply heap_upd_eq.
    - apply own_with_prop_eq. }
  split; [apply heap_upd_eq|].
  split; [|split; [|reflexivity]].
  - intros k' Hne. rewrite own_with_prop_ne by congruence. reflexivity.
  - intros l' Hne. now apply heap_upd_ne.
Qed.

(** X9: the constructors as plain functions, the way a subclass calls
    [Component.call(this, props, context, updater)].  Called on an
    instance that exists, either function returns undefined and sets the
    four fields from its arguments in place; the prototype of the
    instance stays the one it was made with. *)
Theorem constructor_reinitialises s n args args' pure pure' :
  loaded s ->
  exists l s1,
    new' (5 + n) (VRef (constructor_of L pure)) args s = (Ret (VRef l), s1) /\
    call (5 + n) (VRef (constructor_of L pure')) (VRef l) args' s1
    = (Ret VUndefined,
       upd l (Obj (VRef (prototype_of L pure)) (fields args') true None) s).
Proof.
  intros Hld.
  pose proof (next_loc_fresh s) as Hfresh.
  set (l := next_loc s) in *.
  set (o := Obj (VRef (prototype_of L pure)) (fields args) true None).
  exists l, (upd l o s).
  split; [now apply new_base with DEV|].
  assert (forall cr d,
            (set_prop I cr (S d) (VRef l) "props" (arg 0 args') >>
             set_prop I cr (S d) (VRef l) "context" (arg 1 args') >>
             set_prop I cr (S d) (VRef l) "refs" (VRef (L_emptyObject L)) >>
             set_prop I cr (S d) (VRef l) "updater"
               (or_else (arg 2 args') ReactNoopUpdateQueue) >>
             ret VUndefined) (upd l o s)
            = (Ret VUndefined,
               upd l (Obj (VRef (prototype_of L pure)) (fields args') true None) s))
    as Hbody.
  { intros cr d.
    erewrite bind_ret; cycle 1.
    { erewrite set_prop_own with (e := true) (c := true);
        [rewrite upd_upd; reflexivity|apply heap_upd_eq|reflexivity|lia]. }
    erewrite bind_ret; cycle 1.
    { erewrite set_prop_own with (e := true) (c := true);
        [rewrite upd_upd; reflexivity|apply heap_upd_eq|reflexivity|lia]. }
    erewrite bind_ret; cycle 1.
    { erewrite set_prop_own with (e := true) (c := true);
        [rewrite upd_upd; reflexivity|apply heap_upd_eq|reflexivity|lia]. }
    erewrite bind_ret; cycle 1.
    { erewrite set_prop_own with (e := true) (c := true);
        [rewrite upd_upd; reflexivity|apply heap_upd_eq|reflexivity|lia]. }
    reflexivity. }
  change (5 + n) with (S (S (3 + n))).
  destruct pure'; simpl constructor_of.
  - rewrite (call_function I ReactNoopUpdateQueue host _ _
               (CPureComponent (L_emptyObject L))).
    + apply Hbody.
    + apply is_function_upd; [|assumption].
      eapply is_constructor_function. exact (ld_PureComponent _ _ _ _ Hld).
  - rewrite (call_function I ReactNoopUpdateQueue host _ _
               (CComponent (L_emptyObject L))).
    + apply Hbody.
    + apply is_function_upd; [|assumption].
      eapply is_constructor_function. exact (ld_Component _ _ _ _ Hld).
Qed.

(** X10: called without [new] and without a receiver, in strict code
    where [this] is then undefined, either constructor throws a
    [TypeError] at its first assignment and leaves the store as it was. *)
Theorem constructor_needs_receiver s n args pure this :
  loaded s -> this = VUndefined \/ this = VNull ->
  call (1 + n) (VRef (constructor_of L pure)) this args s
  = (Throw (TypeError "Cannot set property of undefined or null"), s).
Proof.
  intros Hld Hthis. change (1 + n) with (S n).
  destruct pure; simpl constructor_of.
  - rewrite (call_function I ReactNoopUpdateQueue host _ _
               (CPureComponent (L_emptyObject L)));
      [|eapply is_constructor_function; exact (ld_PureComponent _ _ _ _ Hld)].
    destruct Hthis as [-> | ->]; reflexivity.
  - rewrite (call_function I ReactNoopUpdateQueue host _ _
               (CComponent (L_emptyObject L)));
      [|eapply is_constructor_function; exact (ld_Component _ _ _ _ Hld)].
    destruct Hthis as [-> | ->]; reflexivity.
Qed.

End InstanceUse.

(** ** The module in the concrete host *)

Ltac evaluated := vm_compute; reflexivity.

Ltac loaded_by_evaluation :=
  split;
  [ eexists; split; [evaluated | split; reflexivity]
  | evaluated
  | eexists; split; [evaluated | split; reflexivity]
  | evaluated
  | eexists; split; [evaluated | reflexivity]
  | eexists; split; [evaluated | reflexivity]
  | first [discriminate | intros _; eexists; split; [evaluated | reflexivity]]
  | first [discriminate | intros _; eexists; split; [evaluated | reflexivity]]
  | eexists; split; [evaluated | split; reflexivity]
  | evaluated ].

Ltac instance_by_evaluation :=
  eexists; split; [evaluated | split; reflexivity].

Ltac updater_by_evaluation :=
  eexists; exists true, true, true; split; [evaluated | reflexivity].

Ltac exposes_by_evaluation lf :=
  exists 6, lf, true, true, true;
  split; [reflexivity | split; [evaluated | eexists; split; [evaluated | reflexivity]]].

Lemma loaded_dev : loaded host_intrinsics true dev_layout (loaded_store true).
Proof. loaded_by_evaluation. Qed.

Lemma loaded_prod : loaded host_intrinsics false prod_layout (loaded_store false).
Proof. loaded_by_evaluation. Qed.

Lemma loaded_instance_store pure :
  loaded host_intrinsics true dev_layout (instance_store pure).
Proof. destruct pure; loaded_by_evaluation. Qed.

(** [setState] with a number throws and leaves the trace empty; with an
    object it makes the one call into the updater. *)
Example setState_number :
  host_invoke (VRef the_instance) "setState" [VNumber (Num 5)] (instance_store false)
  = (Throw (InvariantViolation setState_message), instance_store false).
Proof. evaluated. Qed.

Example setState_object :
  let r := host_invoke (VRef the_instance) "setState" [VRef 14; VNull]
             (instance_store false) in
  fst r = Ret VUndefined /\
  trace (snd r)
  = [HostCall 1 noop_queue [VRef the_instance; VRef 14; VNull; VString "setState"]] /\
  heap (snd r) = heap (instance_store false).
Proof. repeat split; evaluated. Qed.

(** Reading [isMounted] twice in a development build prints two warnings;
    in a production build it prints none. *)
Example isMounted_twice :
  let r := (host_get (VRef the_instance) "isMounted" >>
            host_get (VRef the_instance) "isMounted") (instance_store true) in
  fst r = Ret VUndefined /\
  trace (snd r) = [deprecation_warning "isMounted"; deprecation_warning "isMounted"].
Proof. split; evaluated. Qed.

Example isMounted_in_production :
  host_get (VRef 24) "isMounted" production_instance_store
  = (Ret VUndefined, production_instance_store).
Proof. evaluated. Qed.

(** In a production build the shared placeholder takes a new property. *)
Example production_placeholder_is_mutable :
  fst (host_set (VRef 11) "leak" (VBool true) production_instance_store) = Ret tt.
Proof. evaluated. Qed.

(** ** The claims at concrete inputs *)

Lemma setState_validation_witness :
  loaded host_intrinsics true dev_layout (instance_store false) /\
  component_instance dev_layout (instance_store false) the_instance /\
  (accepted (VNumber (Num 5)) = false ->
   host_invoke (VRef the_instance) "setState" [VNumber (Num 5); VNull]
     (instance_store false)
   = (Throw (InvariantViolation setState_message), instance_store false)) /\
  (forall u id m,
      bound_updater (instance_store false) the_instance u ->
      exposes m (instance_store false) u "enqueueSetState" id -> m <= 3 + 4 ->
      ((exists msg s',
           host_invoke (VRef the_instance) "setState" [VNumber (Num 5); VNull]
             (instance_store false)
           = (Throw (InvariantViolation msg), s'))
       <-> accepted (VNumber (Num 5)) = false) /\
      (accepted (VNumber (Num 5)) = true ->
       forall r st,
         quiet_host id u
           [VRef the_instance; VNumber (Num 5); VNull; VString "setState"]
           (State (heap (instance_store false))
              (trace (instance_store false)
               ++ [HostCall id u
                     [VRef the_instance; VNumber (Num 5); VNull;
                      VString "setState"]]))
         = (Normal r, st) ->
         host_invoke (VRef the_instance) "setState" [VNumber (Num 5); VNull]
           (instance_store false)
         = (Ret VUndefined, st))).
Proof.
  assert (loaded host_intrinsics true dev_layout (instance_store false)) as Hld
    by loaded_by_evaluation.
  assert (component_instance dev_layout (instance_store false) the_instance) as Hi
    by (left; instance_by_evaluation).
  split; [exact Hld|]. split; [exact Hi|].
  exact (setState_validation host_intrinsics true noop_queue quiet_host
           dev_layout (instance_store false) the_instance
           (VNumber (Num 5)) VNull 4 Hld Hi).
Defined.

Lemma setState_forceUpdate_forward_witness :
  loaded host_intrinsics true dev_layout (instance_store true) /\
  component_instance dev_layout (instance_store true) the_instance /\
  bound_updater (instance_store true) the_instance noop_queue /\
  exposes 1 (instance_store true) noop_queue "enqueueSetState" 1 /\
  exposes 1 (instance_store true) noop_queue "enqueueForceUpdate" 0 /\
  host_invoke (VRef the_instance) "setState" [VRef 14; VNull] (instance_store true)
  = forwarded quiet_host 1 noop_queue
      [VRef the_instance; VRef 14; VNull; VString "setState"] (instance_store true) /\
  host_invoke (VRef the_instance) "forceUpdate" [VNull] (instance_store true)
  = forwarded quiet_host 0 noop_queue
      [VRef the_instance; VNull; VString "forceUpdate"] (instance_store true) /\
  trace
    (snd (host_invoke (VRef the_instance) "setState" [VRef 14; VNull]
            (instance_store true)))
  = [HostCall 1 noop_queue
       [VRef the_instance; VRef 14; VNull; VString "setState"]].
Proof.
  assert (loaded host_intrinsics true dev_layout (instance_store true)) as Hld
    by loaded_by_evaluation.
  assert (component_instance dev_layout (instance_store true) the_instance) as Hi
    by (right; instance_by_evaluation).
  assert (bound_updater (instance_store true) the_instance noop_queue) as Hu
    by updater_by_evaluation.
  assert (exposes 1 (instance_store true) noop_queue "enqueueSetState" 1) as Hs
    by exposes_by_evaluation 8.
  assert (exposes 1 (instance_store true) noop_queue "enqueueForceUpdate" 0) as Hf
    by exposes_by_evaluation 7.
  pose proof (setState_forceUpdate_forward host_intrinsics true noop_queue
                quiet_host dev_layout (instance_store true) the_instance
                noop_queue 4 Hld Hi Hu) as [Hset Hforce].
  repeat (split; [assumption|]).
  split; [|split].
  - apply (Hset 1 1 (VRef 14) VNull Hs); [lia | reflexivity].
  - apply (Hforce 0 1 VNull Hf). lia.
  - evaluated.
Defined.

Lemma refs_is_shared_placeholder_witness :
  loaded host_intrinsics true dev_layout (loaded_store true) /\
  exists l s' e,
    host_new (VRef (constructor_of dev_layout true)) [VString "props"; VNull]
      (loaded_store true)
    = (Ret (VRef l), s') /\
    host_get (VRef l) "refs" s' = (Ret (VRef (L_emptyObject dev_layout)), s') /\
    heap (loaded_store true) !! L_emptyObject dev_layout = Some e /\
    heap s' !! L_emptyObject dev_layout = Some e /\
    obj_props e = [] /\
    is_frozen e = true /\
    (true = true ->
     forall k x, is_standard k = false ->
       exists m,
         host_set (VRef (L_emptyObject dev_layout)) k x s'
         = (Throw (TypeError m), s')).
Proof.
  assert (loaded host_intrinsics true dev_layout (loaded_store true)) as Hld
    by loaded_by_evaluation.
  split; [exact Hld|].
  exact (refs_is_shared_placeholder host_intrinsics true noop_queue quiet_host
           dev_layout (loaded_store true) 3 [VString "props"; VNull] true Hld).
Defined.

(** C3 as stated fails: in a production build the placeholder that [refs]
    holds is an ordinary extensible object. *)
Lemma placeholder_not_always_frozen : ~ placeholder_always_frozen.
Proof.
  intros H.
  destruct (H host_intrinsics false noop_queue quiet_host prod_layout
              (loaded_store false) 3 [VString "props"; VNull] false loaded_prod)
    as (l & s' & e & o & Hnew & Hget & He & Hfrozen).
  assert (new host_intrinsics noop_queue quiet_host (5 + 3)
            (VRef (constructor_of prod_layout false)) [VString "props"; VNull]
            (loaded_store false)
          = (Ret (VRef 24), production_instance_store)) as E1 by evaluated.
  rewrite E1 in Hnew.
  pose proof (f_equal snd Hnew) as Hs. cbn [snd] in Hs. subst s'.
  pose proof (f_equal fst Hnew) as Hl. cbn [fst] in Hl.
  assert (l = 24) as -> by congruence.
  assert (get host_intrinsics noop_queue quiet_host (5 + 3) (VRef 24) "refs"
            production_instance_store
          = (Ret (VRef 11), production_instance_store)) as E2 by evaluated.
  rewrite E2 in Hget.
  pose proof (f_equal fst Hget) as Hr. cbn [fst] in Hr.
  assert (e = 11) as -> by congruence.
  assert (Some o = Some (Obj (VRef 0) [] true None)) as E3
    by (rewrite <- He; evaluated).
  assert (o = Obj (VRef 0) [] true None) as -> by congruence.
  discriminate Hfrozen.
Qed.

Lemma Component_stores_arguments_witness :
  loaded host_intrinsics true dev_layout (loaded_store true) /\
  exists l s',
    host_new (VRef (L_Component dev_layout)) [VString "props"; VNull; VRef 6]
      (loaded_store true)
    = (Ret (VRef l), s') /\
    host_get (VRef l) "props" s' = (Ret (VString "props"), s') /\
    host_get (VRef l) "context" s' = (Ret VNull, s') /\
    host_get (VRef l) "updater" s' = (Ret (or_else (VRef 6) noop_queue), s') /\
    (forall u, VRef 6 = VRef u ->
               host_get (VRef l) "updater" s' = (Ret (VRef u), s')) /\
    (exists l0 s0,
        host_new (VRef (L_Component dev_layout)) [VString "props"; VNull]
          (loaded_store true)
        = (Ret (VRef l0), s0) /\
        host_get (VRef l0) "updater" s0 = (Ret noop_queue, s0)).
Proof.
  assert (loaded host_intrinsics true dev_layout (loaded_store true)) as Hld
    by loaded_by_evaluation.
  split; [exact Hld|].
  exact (Component_stores_arguments host_intrinsics true noop_queue quiet_host
           dev_layout (loaded_store true) 3 (VString "props") VNull (VRef 6) Hld).
Defined.



(** The statements of [React.js] in the concrete host, with the flag on. *)
Example statements_at_host :
  (exists op,
      heap (loaded_store true) !! ObjectPrototype host_intrinsics = Some op /\
      pristine op) /\
  exists r s' o Children,
    React_statements host_intrinsics true true some_imports
      (call host_intrinsics noop_queue quiet_host 8) (2 + 6) (loaded_store true)
    = (Ret (VRef r), s') /\
    heap s' !! r = Some o /\
    (true = true ->
     own o "ConcurrentMode"
     = Some (Data (REACT_CONCURRENT_MODE_TYPE some_imports) true true true) /\
     get_prop host_intrinsics (call host_intrinsics noop_queue quiet_host 8)
       (2 + 6) (VRef r) "ConcurrentMode" s'
     = (Ret (REACT_CONCURRENT_MODE_TYPE some_imports), s') /\
     get_prop host_intrinsics (call host_intrinsics noop_queue quiet_host 8)
       (2 + 6) (VRef r) "unstable_ConcurrentMode" s'
     = (Ret VUndefined, s')) /\
    (true = false ->
     own o "ConcurrentMode" = None /\
     get_prop host_intrinsics (call host_intrinsics noop_queue quiet_host 8)
       (2 + 6) (VRef r) "ConcurrentMode" s'
     = (Ret VUndefined, s') /\
     get_prop host_intrinsics (call host_intrinsics noop_queue quiet_host 8)
       (2 + 6) (VRef r) "unstable_ConcurrentMode" s'
     = (Ret (REACT_CONCURRENT_MODE_TYPE some_imports), s')) /\
    (forall k, k <> "ConcurrentMode" -> k <> "unstable_ConcurrentMode" ->
       own o k
       = option_map (fun v => Data v true true true)
           (assoc k (React_fields true some_imports Children))).
Proof.
  assert (exists op,
             heap (loaded_store true) !! ObjectPrototype host_intrinsics = Some op /\
             pristine op) as Hop
    by (eexists; split; [evaluated | split; reflexivity]).
  split; [exact Hop|].
  exact (statements_apply_flag host_intrinsics true true some_imports
           (call host_intrinsics noop_queue quiet_host 8) (loaded_store true) 6 Hop).
Qed.

Lemma deprecated_member_access_witness :
  loaded host_intrinsics true dev_layout (instance_store false) /\
  component_instance dev_layout (instance_store false) the_instance /\
  ("isMounted" = "isMounted" \/ "isMounted" = "replaceState") /\
  (true = true ->
   host_get (VRef the_instance) "isMounted" (instance_store false)
   = (Ret VUndefined,
      State (heap (instance_store false))
        (trace (instance_store false) ++ [deprecation_warning "isMounted"])) /\
   exists g,
     find_prop (4 + 4) (heap (instance_store false)) the_instance "isMounted"
     = Some (Some (Accessor (VRef g) VUndefined false false)) /\
     is_function (instance_store false) g
       (CDeprecatedGetter (info_of "isMounted"))) /\
  (true = false ->
   find_prop (4 + 4) (heap (instance_store false)) the_instance "isMounted"
   = Some None /\
   host_get (VRef the_instance) "isMounted" (instance_store false)
   = (Ret VUndefined, instance_store false)).
Proof.
  assert (loaded host_intrinsics true dev_layout (instance_store false)) as Hld
    by loaded_by_evaluation.
  assert (component_instance dev_layout (instance_store false) the_instance) as Hi
    by (left; instance_by_evaluation).
  assert ("isMounted" = "isMounted" \/ "isMounted" = "replaceState") as Hk
    by (left; reflexivity).
  repeat (split; [assumption|]).
  exact (deprecated_member_access host_intrinsics true noop_queue quiet_host
           dev_layout (instance_store false) the_instance "isMounted" 4
           Hld Hi Hk).
Defined.

Lemma rejected_setState_has_no_effect_witness :
  loaded host_intrinsics true dev_layout (instance_store false) /\
  component_instance dev_layout (instance_store false) the_instance /\
  bound_updater (instance_store false) the_instance noop_queue /\
  exposes 1 (instance_store false) noop_queue "enqueueSetState" 1 /\
  1 <= 3 + 4 /\
  host_invoke (VRef the_instance) "setState" [VString "next"; VNull]
    (instance_store false)
  = (Throw (InvariantViolation setState_message), instance_store false) /\
  (instance_store false = instance_store false /\
   heap (instance_store false) = heap (instance_store false) /\
   trace (instance_store false) = trace (instance_store false) /\
   accepted (VString "next") = false).
Proof.
  assert (loaded host_intrinsics true dev_layout (instance_store false)) as Hld
    by loaded_by_evaluation.
  assert (component_instance dev_layout (instance_store false) the_instance) as Hi
    by (left; instance_by_evaluation).
  assert (bound_updater (instance_store false) the_instance noop_queue) as Hu
    by updater_by_evaluation.
  assert (exposes 1 (instance_store false) noop_queue "enqueueSetState" 1) as Hs
    by exposes_by_evaluation 8.
  assert (1 <= 3 + 4) as Hm by lia.
  assert (host_invoke (VRef the_instance) "setState" [VString "next"; VNull]
            (instance_store false)
          = (Throw (InvariantViolation setState_message), instance_store false))
    as Hrun by evaluated.
  repeat (split; [assumption|]).
  exact (rejected_setState_has_no_effect host_intrinsics true noop_queue
           quiet_host dev_layout (instance_store false) the_instance noop_queue
           1 1 (VString "next") VNull 4 setState_message (instance_store false)
           Hld Hi Hu Hs Hm Hrun).
Defined.

Lemma constructors_assign_four_fields_witness :
  loaded host_intrinsics true dev_layout (loaded_store true) /\
  exists l o s',
    host_new (VRef (constructor_of dev_layout true)) [VString "props"; VNull]
      (loaded_store true)
    = (Ret (VRef l), s') /\
    heap (loaded_store true) !! l = None /\
    heap s' !! l = Some o /\
    map fst (obj_props o) = ["props"; "context"; "refs"; "updater"] /\
    (forall l', l' <> l -> heap s' !! l' = heap (loaded_store true) !! l') /\
    trace s' = trace (loaded_store true) /\
    own o "state" = None /\
    host_get (VRef l) "state" s' = (Ret VUndefined, s').
Proof.
  assert (loaded host_intrinsics true dev_layout (loaded_store true)) as Hld
    by loaded_by_evaluation.
  split; [exact Hld|].
  exact (constructors_assign_four_fields host_intrinsics true noop_queue
           quiet_host dev_layout (loaded_store true) 3 [VString "props"; VNull]
           true Hld).
Defined.

(** ** The further properties at concrete inputs *)

Lemma ReactBaseClasses_loads_witness :
  heap host_store !! ObjectPrototype host_intrinsics = Some host_object_prototype /\
  pristine host_object_prototype /\
  loads host_intrinsics true host_store
    (ReactBaseClasses host_intrinsics true noop_queue quiet_host (3 + 0) host_store).
Proof.
  assert (heap host_store !! ObjectPrototype host_intrinsics
          = Some host_object_prototype) as Hop by evaluated.
  assert (pristine host_object_prototype) as Hpr by (split; reflexivity).
  split; [exact Hop|]. split; [exact Hpr|].
  exact (ReactBaseClasses_loads host_intrinsics true noop_queue quiet_host
           host_store 0 host_object_prototype Hop Hpr).
Defined.

Lemma deprecated_member_assignment_witness :
  loaded host_intrinsics true dev_layout (instance_store false) /\
  component_instance dev_layout (instance_store false) the_instance /\
  ("replaceState" = "isMounted" \/ "replaceState" = "replaceState") /\
  (true = true ->
   exists msg,
     host_set (VRef the_instance) "replaceState" (VBool true) (instance_store false)
     = (Throw (TypeError msg), instance_store false)) /\
  (true = false ->
   forall o, heap (instance_store false) !! the_instance = Some o ->
     obj_extensible o = true ->
     host_set (VRef the_instance) "replaceState" (VBool true) (instance_store false)
     = (Ret tt,
        upd the_instance
          (with_prop "replaceState" (Data (VBool true) true true true) o)
          (instance_store false))).
Proof.
  assert (loaded host_intrinsics true dev_layout (instance_store false)) as Hld
    by loaded_by_evaluation.
  assert (component_instance dev_layout (instance_store false) the_instance) as Hi
    by (left; instance_by_evaluation).
  assert ("replaceState" = "isMounted" \/ "replaceState" = "replaceState") as Hk
    by (right; reflexivity).
  repeat (split; [assumption|]).
  exact (deprecated_member_assignment host_intrinsics true noop_queue quiet_host
           dev_layout (instance_store false) the_instance "replaceState"
           (VBool true) 4 Hld Hi Hk).
Defined.

Lemma updater_without_operation_witness :
  loaded host_intrinsics true dev_layout bare_updater_store /\
  component_instance dev_layout bare_updater_store the_instance /\
  bound_updater bare_updater_store the_instance (VRef 14) /\
  base_of host_intrinsics (VRef 14) = Some 14 /\
  find_prop 2 (heap bare_updater_store) 14 "enqueueSetState" = Some None /\
  2 <= 3 + 4 /\
  accepted VNull = true /\
  host_invoke (VRef the_instance) "setState" [VNull; VNull] bare_updater_store
  = (Throw (TypeError "not a function"), bare_updater_store).
Proof.
  assert (loaded host_intrinsics true dev_layout bare_updater_store) as Hld
    by loaded_by_evaluation.
  assert (component_instance dev_layout bare_updater_store the_instance) as Hi
    by (left; instance_by_evaluation).
  assert (bound_updater bare_updater_store the_instance (VRef 14)) as Hu
    by updater_by_evaluation.
  assert (base_of host_intrinsics (VRef 14) = Some 14) as Hb by reflexivity.
  assert (find_prop 2 (heap bare_updater_store) 14 "enqueueSetState" = Some None)
    as Hfind by evaluated.
  assert (2 <= 3 + 4) as Hm by lia.
  assert (accepted VNull = true) as Hp by reflexivity.
  repeat (split; [assumption|]).
  exact (proj1 (updater_without_operation host_intrinsics true noop_queue
                  quiet_host dev_layout bare_updater_store the_instance (VRef 14)
                  4 Hld Hi Hu) 14 2 VNull VNull Hb Hfind Hm Hp).
Defined.

Lemma constructor_round_trip_witness :
  loaded host_intrinsics true dev_layout (loaded_store true) /\
  exists l s',
    host_new (VRef (constructor_of dev_layout true)) [VString "props"]
      (loaded_store true)
    = (Ret (VRef l), s') /\
    host_get (VRef l) "constructor" s'
    = (Ret (VRef (constructor_of dev_layout true)), s').
Proof.
  assert (loaded host_intrinsics true dev_layout (loaded_store true)) as Hld
    by loaded_by_evaluation.
  split; [exact Hld|].
  exact (constructor_round_trip host_intrinsics true noop_queue quiet_host
           dev_layout (loaded_store true) 3 [VString "props"] true Hld).
Defined.

Lemma instanceof_classes_witness :
  loaded host_intrinsics true dev_layout (instance_store false) /\
  instance_of (L_ComponentPrototype dev_layout) (instance_store false)
    the_instance /\
  instanceof host_intrinsics (call host_intrinsics noop_queue quiet_host (3 + 5))
    (3 + 5) (VRef the_instance) (VRef (L_Component dev_layout))
    (instance_store false)
  = (Ret true, instance_store false) /\
  instanceof host_intrinsics (call host_intrinsics noop_queue quiet_host (3 + 5))
    (3 + 5) (VRef the_instance) (VRef (L_PureComponent dev_layout))
    (instance_store false)
  = (Ret false, instance_store false).
Proof.
  assert (loaded host_intrinsics true dev_layout (instance_store false)) as Hld
    by loaded_by_evaluation.
  assert (instance_of (L_ComponentPrototype dev_layout) (instance_store false)
            the_instance) as Hi by instance_by_evaluation.
  split; [exact Hld|]. split; [exact Hi|].
  exact (proj2 (instanceof_classes host_intrinsics true noop_queue quiet_host
                  dev_layout (instance_store false) 5 Hld) the_instance Hi).
Defined.

Lemma production_placeholder_is_shared_witness :
  false = false /\
  loaded host_intrinsics false prod_layout (loaded_store false) /\
  is_standard "leak" = false /\
  exists a b s1 s2 s3,
    host_new (VRef (constructor_of prod_layout false)) [VString "one"]
      (loaded_store false)
    = (Ret (VRef a), s1) /\
    host_new (VRef (constructor_of prod_layout true)) [VString "two"] s1
    = (Ret (VRef b), s2) /\
    a <> b /\
    (let* r := host_get (VRef a) "refs" in host_set r "leak" (VBool true)) s2
    = (Ret tt, s3) /\
    (let* r := host_get (VRef b) "refs" in host_get r "leak") s3
    = (Ret (VBool true), s3).
Proof.
  assert (loaded host_intrinsics false prod_layout (loaded_store false)) as Hld
    by loaded_by_evaluation.
  split; [reflexivity|]. split; [exact Hld|]. split; [reflexivity|].
  exact (production_placeholder_is_shared host_intrinsics false noop_queue
           quiet_host prod_layout (loaded_store false) 3 [VString "one"]
           [VString "two"] false true "leak" (VBool true) eq_refl Hld eq_refl).
Defined.

Lemma injected_updater_is_used_witness :
  loaded host_intrinsics true dev_layout (loaded_store true) /\
  exposes 1 (loaded_store true) noop_queue "enqueueSetState" 1 /\
  1 <= 4 + 3 /\
  accepted VNull = true /\
  exists l s1 s2,
    host_new (VRef (constructor_of dev_layout false))
      [VString "props"; VNull; VRef 14] (loaded_store true)
    = (Ret (VRef l), s1) /\
    host_set (VRef l) "updater" noop_queue s1 = (Ret tt, s2) /\
    host_invoke (VRef l) "setState" [VNull; VNull] s2
    = forwarded quiet_host 1 noop_queue [VRef l; VNull; VNull; VString "setState"] s2.
Proof.
  assert (loaded host_intrinsics true dev_layout (loaded_store true)) as Hld
    by loaded_by_evaluation.
  assert (exposes 1 (loaded_store true) noop_queue "enqueueSetState" 1) as Hex
    by exposes_by_evaluation 8.
  assert (1 <= 4 + 3) as Hm by lia.
  assert (accepted VNull = true) as Hp by reflexivity.
  repeat (split; [assumption|]).
  exact (injected_updater_is_used host_intrinsics true noop_queue quiet_host
           dev_layout (loaded_store true) 3 [VString "props"; VNull; VRef 14]
           false noop_queue 1 1 VNull VNull Hld Hex Hm Hp).
Defined.

Lemma instance_member_round_trip_witness :
  loaded host_intrinsics true dev_layout (loaded_store true) /\
  ("state" = "constructor" \/ is_standard "state" = false) /\
  (true = true -> "state" <> "isMounted" /\ "state" <> "replaceState") /\
  exists l s1 s2 o2,
    host_new (VRef (constructor_of dev_layout false)) [VString "props"]
      (loaded_store true)
    = (Ret (VRef l), s1) /\
    host_set (VRef l) "state" (VNumber (Num 0)) s1 = (Ret tt, s2) /\
    host_get (VRef l) "state" s2 = (Ret (VNumber (Num 0)), s2) /\
    heap s2 !! l = Some o2 /\
    (forall k', k' <> "state" ->
       own o2 k'
       = assoc k' (instance_fields (L_emptyObject dev_layout) noop_queue
                     [VString "props"])) /\
    (forall l', l' <> l -> heap s2 !! l' = heap (loaded_store true) !! l') /\
    trace s2 = trace (loaded_store true).
Proof.
  assert (loaded host_intrinsics true dev_layout (loaded_store true)) as Hld
    by loaded_by_evaluation.
  assert ("state" = "constructor" \/ is_standard "state" = false) as Hk
    by (right; reflexivity).
  assert (true = true -> "state" <> "isMounted" /\ "state" <> "replaceState")
    as Hdep by (intros _; split; discriminate).
  repeat (split; [assumption|]).
  exact (instance_member_round_trip host_intrinsics true noop_queue quiet_host
           dev_layout (loaded_store true) 3 [VString "props"] false "state"
           (VNumber (Num 0)) Hld Hk Hdep).
Defined.

Lemma constructor_reinitialises_witness :
  loaded host_intrinsics true dev_layout (loaded_store true) /\
  exists l s1,
    host_new (VRef (constructor_of dev_layout true)) [VString "props"]
      (loaded_store true)
    = (Ret (VRef l), s1) /\
    call host_intrinsics noop_queue quiet_host (5 + 3)
      (VRef (constructor_of dev_layout false)) (VRef l) [VString "again"; VNull] s1
    = (Ret VUndefined,
       upd l
         (Obj (VRef (prototype_of dev_layout true))
            (instance_fields (L_emptyObject dev_layout) noop_queue
               [VString "again"; VNull])
            true None)
         (loaded_store true)).
Proof.
  assert (loaded host_intrinsics true dev_layout (loaded_store true)) as Hld
    by loaded_by_evaluation.
  split; [exact Hld|].
  exact (constructor_reinitialises host_intrinsics true noop_queue quiet_host
           dev_layout (loaded_store true) 3 [VString "props"]
           [VString "again"; VNull] true false Hld).
Defined.

Lemma constructor_needs_receiver_witness :
  loaded host_intrinsics true dev_layout (loaded_store true) /\
  (VUndefined = VUndefined \/ VUndefined = VNull) /\
  call host_intrinsics noop_queue quiet_host (1 + 7)
    (VRef (constructor_of dev_layout false)) VUndefined [VString "props"]
    (loaded_store true)
  = (Throw (TypeError "Cannot set property of undefined or null"),
     loaded_store true).
Proof.
  assert (loaded host_intrinsics true dev_layout (loaded_store true)) as Hld
    by loaded_by_evaluation.
  assert (VUndefined = VUndefined \/ VUndefined = VNull) as Ht by (left; reflexivity).
  split; [exact Hld|]. split; [exact Ht|].
  exact (constructor_needs_receiver host_intrinsics true noop_queue quiet_host
           dev_layout (loaded_store true) 7 [VString "props"] false VUndefined
           Hld Ht).
Defined.
